(** * ue-tracker: the order tracker of [app.js], embedded and verified

    The development follows the source file top-down:
    - [Text]: JavaScript string helpers ([trim], [toLowerCase], white-space
      collapsing, truthiness);
    - [Rx]: the fragment of JavaScript regular expressions the source uses,
      with a backtracking matcher (leftmost match, greedy and lazy
      quantifiers, capture groups, [\b], [^], [$]);
    - [Sanitize], [Dom], [Scrape]: [sanitize], the parsed page as the
      selectors see it, and [scrapeFromHTML];
    - [Classify]: [classifyPhase];
    - [Json], [Embed]: [JSON.stringify], the embed builders, [hashPayload];
    - [Runtime]: the job table, the three runtime maps, [safeEditOrRepost],
      [runOnceAndUpdate] and [startJob], as computations on a world that
      also records what is sent to the chat platform;
    - [Samples], [Rel]: pages, answers and worlds to run on, and the
      relations the theorems are stated with.

    Strings are byte strings: the non-ASCII punctuation marks of the
    source are their UTF-8 bytes, and [String.length] agrees with
    JavaScript's [length] on ASCII text. *)

From stdpp Require Import gmap strings list fin_maps.
From Stdlib Require Import Ascii String ZArith Lia Bool.

Local Open Scope string_scope.
Local Open Scope list_scope.
Set Warnings "-register-all".

(* ===================================================================== *)
(** ** JavaScript strings *)
(* ===================================================================== *)

Module Text.

Definition code (a : ascii) : N := N_of_ascii a.

Definition in_range (lo hi : N) (a : ascii) : bool :=
  (lo <=? code a)%N && (code a <=? hi)%N.

Definition is_digit : ascii -> bool := in_range 48 57.
Definition is_upper : ascii -> bool := in_range 65 90.
Definition is_lower : ascii -> bool := in_range 97 122.
Definition is_alpha (a : ascii) : bool := is_upper a || is_lower a.

(** [\w] *)
Definition is_word (a : ascii) : bool :=
  is_alpha a || is_digit a || (code a =? 95)%N.

(** [\s] on bytes: tab, line feed, vertical tab, form feed, carriage
    return, space. *)
Definition is_space (a : ascii) : bool :=
  in_range 9 13 a || (code a =? 32)%N.

(** Line terminators, which [.] refuses. *)
Definition is_newline (a : ascii) : bool :=
  (code a =? 10)%N || (code a =? 13)%N.

Definition lower_ascii (a : ascii) : ascii :=
  if is_upper a then ascii_of_N (code a + 32) else a.

Definition upper_ascii (a : ascii) : ascii :=
  if is_lower a then ascii_of_N (code a - 32) else a.

(** [s.toLowerCase()] *)
Fixpoint toLowerCase (s : string) : string :=
  match s with
  | EmptyString => EmptyString
  | String a s' => String (lower_ascii a) (toLowerCase s')
  end.

Fixpoint toUpperCase (s : string) : string :=
  match s with
  | EmptyString => EmptyString
  | String a s' => String (upper_ascii a) (toUpperCase s')
  end.

(** [s.replace(/\s+/g, ' ')]: every maximal run of white space becomes one
    space. [in_run] tells that the previous character was white space. *)
Fixpoint collapse_from (in_run : bool) (s : string) : string :=
  match s with
  | EmptyString => EmptyString
  | String a s' =>
      if is_space a
      then if in_run then collapse_from true s'
           else String " "%char (collapse_from true s')
      else String a (collapse_from false s')
  end.

Definition collapse_ws (s : string) : string := collapse_from false s.

Fixpoint trim_start (s : string) : string :=
  match s with
  | EmptyString => EmptyString
  | String a s' => if is_space a then trim_start s' else s
  end.

(** Drops trailing white space: a character stays when something that is
    not white space follows or it is not white space itself. *)
Fixpoint trim_end (s : string) : string :=
  match s with
  | EmptyString => EmptyString
  | String a s' =>
      match trim_end s' with
      | EmptyString => if is_space a then EmptyString else String a EmptyString
      | rest => String a rest
      end
  end.

(** [s.trim()] *)
Definition trim (s : string) : string := trim_end (trim_start s).

(** [s.slice(0, n)] *)
Fixpoint str_take (n : nat) (s : string) : string :=
  match n, s with
  | O, _ => EmptyString
  | _, EmptyString => EmptyString
  | S n', String a s' => String a (str_take n' s')
  end.

(** [s.slice(n)] *)
Fixpoint str_drop (n : nat) (s : string) : string :=
  match n, s with
  | O, _ => s
  | _, EmptyString => EmptyString
  | S n', String _ s' => str_drop n' s'
  end.

(** [xs.join(sep)] *)
Fixpoint join (sep : string) (xs : list string) : string :=
  match xs with
  | [] => EmptyString
  | [x] => x
  | x :: rest => x +:+ sep +:+ join sep rest
  end.

(** JavaScript truthiness of a nullable string: [null] and [''] are falsy. *)
Definition truthy (v : option string) : bool :=
  match v with
  | Some s => negb (String.eqb s "")
  | None => false
  end.

(** [a || b] on nullable strings. *)
Definition or_else (a b : option string) : option string :=
  if truthy a then a else b.

(** [v || null] *)
Definition or_null (v : option string) : option string :=
  if truthy v then v else None.

(** [label.charAt(0).toUpperCase() + label.slice(1)] *)
Definition capitalize (s : string) : string :=
  toUpperCase (str_take 1 s) +:+ str_drop 1 s.

End Text.

(* ===================================================================== *)
(** ** Regular expressions *)
(* ===================================================================== *)

Module Rx.
Import Text.

(** The syntax the patterns of [app.js] need. [Grp i r] is the [i]-th
    capturing group; [Bol], [Eol] and [WordB] are [^], [$] and [\b]. *)
Inductive regex : Type :=
| Eps
| Cls (p : ascii -> bool)
| Cat (r1 r2 : regex)
| Alt (r1 r2 : regex)
| Star (r : regex)
| LazyStar (r : regex)
| Grp (i : nat) (r : regex)
| Bol
| Eol
| WordB.

Definition caps : Type := list (nat * string).

Fixpoint cap_lookup (i : nat) (c : caps) : option string :=
  match c with
  | [] => None
  | (j, v) :: c' => if Nat.eqb i j then Some v else cap_lookup i c'
  end.

(** A continuation receives the last character consumed, the rest of the
    input and the captures so far. *)
Definition cont : Type := option ascii -> string -> caps -> option (string * caps).

Definition word_before (p : option ascii) : bool :=
  match p with Some a => is_word a | None => false end.

Definition word_after (s : string) : bool :=
  match s with String a _ => is_word a | EmptyString => false end.

Definition consumed (before after : string) : string :=
  str_take (String.length before - String.length after) before.

(** The backtracking matcher: alternatives are tried left to right, a
    greedy star tries one more round before it goes on, a lazy one goes on
    first, and a round that consumes nothing is refused, as in ECMAScript.
    The star loops on the number of characters left. *)
Fixpoint run (r : regex) (p : option ascii) (s : string) (c : caps) (k : cont)
  : option (string * caps) :=
  match r with
  | Eps => k p s c
  | Cls f =>
      match s with
      | String a s' => if f a then k (Some a) s' c else None
      | EmptyString => None
      end
  | Cat r1 r2 => run r1 p s c (fun p' s' c' => run r2 p' s' c' k)
  | Alt r1 r2 =>
      match run r1 p s c k with
      | Some x => Some x
      | None => run r2 p s c k
      end
  | Star r1 =>
      (fix loop (n : nat) (p : option ascii) (s : string) (c : caps) {struct n} :=
         match n with
         | O => k p s c
         | S n' =>
             match run r1 p s c (fun p' s' c' =>
                     if (String.length s' <? String.length s)%nat
                     then loop n' p' s' c' else None) with
             | Some x => Some x
             | None => k p s c
             end
         end) (String.length s) p s c
  | LazyStar r1 =>
      (fix loop (n : nat) (p : option ascii) (s : string) (c : caps) {struct n} :=
         match n with
         | O => k p s c
         | S n' =>
             match k p s c with
             | Some x => Some x
             | None =>
                 run r1 p s c (fun p' s' c' =>
                     if (String.length s' <? String.length s)%nat
                     then loop n' p' s' c' else None)
             end
         end) (String.length s) p s c
  | Grp i r1 =>
      run r1 p s c (fun p' s' c' => k p' s' ((i, consumed s s') :: c'))
  | Bol => match p with None => k p s c | Some _ => None end
  | Eol => match s with EmptyString => k p s c | String _ _ => None end
  | WordB => if xorb (word_before p) (word_after s) then k p s c else None
  end.

(** What [s.match(r)] returns for a pattern without the [g] flag. *)
Record found : Type := Found {
  index : nat;
  whole : string;       (* m[0] *)
  groups : caps         (* m[1], m[2], ... *)
}.

Definition group (i : nat) (m : found) : option string := cap_lookup i (groups m).

(** The leftmost match: start positions are tried in order. *)
Fixpoint search (r : regex) (p : option ascii) (s : string) (idx : nat)
  : option found :=
  match run r p s [] (fun _ s' c => Some (s', c)) with
  | Some (s', c) => Some (Found idx (consumed s s') c)
  | None =>
      match s with
      | EmptyString => None
      | String a s' => search r (Some a) s' (S idx)
      end
  end.

(** [s.match(r)] *)
Definition exec (r : regex) (s : string) : option found := search r None s 0.

(** [r.test(s)] *)
Definition test (r : regex) (s : string) : bool :=
  match exec r s with Some _ => true | None => false end.

(** *** Pattern building *)

Definition chr (a : ascii) : regex := Cls (Ascii.eqb a).

Fixpoint lit (s : string) : regex :=
  match s with
  | EmptyString => Eps
  | String a EmptyString => chr a
  | String a s' => Cat (chr a) (lit s')
  end.

Fixpoint alts (rs : list regex) : regex :=
  match rs with
  | [] => Eps
  | [r] => r
  | r :: rs' => Alt r (alts rs')
  end.

Fixpoint seq (rs : list regex) : regex :=
  match rs with
  | [] => Eps
  | [r] => r
  | r :: rs' => Cat r (seq rs')
  end.

(** [r?], [r+], [r+?], [r{n}], [r{lo,hi}] *)
Definition Opt (r : regex) : regex := Alt r Eps.
Definition Plus (r : regex) : regex := Cat r (Star r).
Definition LazyPlus (r : regex) : regex := Cat r (LazyStar r).

Fixpoint Rep (n : nat) (r : regex) : regex :=
  match n with
  | O => Eps
  | S n' => Cat r (Rep n' r)
  end.

Fixpoint UpTo (n : nat) (r : regex) : regex :=
  match n with
  | O => Eps
  | S n' => Opt (Cat r (UpTo n' r))
  end.

Definition Range (lo hi : nat) (r : regex) : regex :=
  Cat (Rep lo r) (UpTo (hi - lo) r).

(** Character classes *)
Definition any : regex := Cls (fun a => negb (is_newline a)).   (* . *)
Definition anything : regex := Cls (fun _ => true).             (* [\s\S] *)
Definition space : regex := Cls is_space.                       (* \s *)
Definition digit : regex := Cls is_digit.                       (* \d *)
Definition one_of (s : string) : ascii -> bool :=
  fun a => existsb (Ascii.eqb a) (list_ascii_of_string s).

(** The [i] flag: a character matches when one of its two cases does. *)
Fixpoint icase (r : regex) : regex :=
  match r with
  | Cls f => Cls (fun a => f (lower_ascii a) || f (upper_ascii a))
  | Cat r1 r2 => Cat (icase r1) (icase r2)
  | Alt r1 r2 => Alt (icase r1) (icase r2)
  | Star r1 => Star (icase r1)
  | LazyStar r1 => LazyStar (icase r1)
  | Grp i r1 => Grp i (icase r1)
  | other => other
  end.

End Rx.

(* ===================================================================== *)
(** ** Phase classification *)
(* ===================================================================== *)

Inductive Phase : Type := PREPARING | HEADING | ALMOST_HERE | DELIVERED.

#[global] Instance Phase_eq_dec : EqDecision Phase.
Proof. solve_decision. Defined.

Module Classify.
Import Text Rx.

(** [/received|preparing|confirm(ed|ing)?|waiting for the store|getting (the )?order ready/] *)
Definition PREPARING_RX : regex :=
  alts [ lit "received"; lit "preparing";
         Cat (lit "confirm") (Opt (Grp 1 (Alt (lit "ed") (lit "ing"))));
         lit "waiting for the store";
         seq [lit "getting "; Opt (Grp 2 (lit "the ")); lit "order ready"] ].

(** [/(heading .* way|on the way|head(?:ing)? your way)/i] *)
Definition HEADING_RX : regex :=
  icase (Grp 1 (alts [ seq [lit "heading "; Star any; lit " way"];
                       lit "on the way";
                       seq [lit "head"; Opt (lit "ing"); lit " your way"] ])).

(** [/(almost there|nearby|here|arriving)/i] *)
Definition ALMOST_RX : regex :=
  icase (Grp 1 (alts [lit "almost there"; lit "nearby"; lit "here"; lit "arriving"])).

(** [/(delivered|order arrived)/i] *)
Definition DELIVERED_RX : regex :=
  icase (Grp 1 (alts [lit "delivered"; lit "order arrived"])).

(** [classifyPhase(statusLineRaw = '')]: the argument is [null] or a
    string; [(statusLineRaw || '')] turns [null] into the empty string. *)
Definition classifyPhase (statusLineRaw : option string) : option Phase :=
  let s := toLowerCase (default "" statusLineRaw) in
  if test PREPARING_RX s then Some PREPARING
  else if test HEADING_RX s then Some HEADING
  else if test ALMOST_RX s then Some ALMOST_HERE
  else if test DELIVERED_RX s then Some DELIVERED
  else None.

End Classify.

(* ===================================================================== *)
(** ** [sanitize] *)
(* ===================================================================== *)

Module Sanitize.
Import Text Rx.

(** [s.replace(r, by)] for a pattern without the [g] flag: the leftmost
    match is replaced, the rest is kept. *)
Definition replace_first (r : regex) (by_ : string) (s : string) : string :=
  match exec r s with
  | Some m =>
      str_take (index m) s +:+ by_ +:+ str_drop (index m + String.length (whole m)) s
  | None => s
  end.

(** [/This website uses third party advertising cookies[\s\S]*$/i] *)
Definition COOKIE_RX : regex :=
  icase (seq [lit "This website uses third party advertising cookies";
              Star anything; Eol]).

(** The ellipsis [U+2026], three bytes in UTF-8. *)
Definition ELLIPSIS : string := "…".

(** [sanitize(val, max = 1024)] *)
Definition sanitize (val : option string) (max : nat) : option string :=
  if negb (truthy val) then None
  else
    let s := trim (replace_first COOKIE_RX "" (collapse_ws (default "" val))) in
    if String.eqb s "" then None
    else if (max <? String.length s)%nat
         then Some (str_take (max - 1) s +:+ ELLIPSIS)
         else Some s.

Definition sanitizeName (v : option string) : option string := sanitize v 256.
Definition sanitizeValue (v : option string) : option string := sanitize v 1024.

End Sanitize.

(* ===================================================================== *)
(** ** The parsed page *)
(* ===================================================================== *)

Module Dom.
Import Text.

(** What [cheerio.load(html)] hands to the selectors: text nodes and
    elements with a tag, attributes and children, in document order. *)
Inductive node : Type :=
| Txt (s : string)
| El (tag : string) (attrs : list (string * string)) (kids : list node).

Definition document : Type := list node.

(** [$(el).text()]: the text nodes below [el], concatenated. *)
Fixpoint text (n : node) : string :=
  match n with
  | Txt s => s
  | El _ _ kids =>
      (fix texts (ks : list node) : string :=
         match ks with
         | [] => EmptyString
         | k :: ks' => text k +:+ texts ks'
         end) kids
  end.

Fixpoint text_all (d : list node) : string :=
  match d with
  | [] => EmptyString
  | n :: d' => text n +:+ text_all d'
  end.

(** The elements of a subtree in document order, the root included. *)
Fixpoint elements_of (n : node) : list node :=
  match n with
  | Txt _ => []
  | El _ _ kids =>
      n :: (fix below (ks : list node) : list node :=
              match ks with
              | [] => []
              | k :: ks' => (elements_of k ++ below ks')%list
              end) kids
  end.

Fixpoint elements_in (d : list node) : list node :=
  match d with
  | [] => []
  | n :: d' => (elements_of n ++ elements_in d')%list
  end.

Definition kids_of (n : node) : list node :=
  match n with Txt _ => [] | El _ _ kids => kids end.

(** [$(el).find(sel)]: the proper descendants that satisfy [sel]. *)
Definition find (sel : node -> bool) (n : node) : list node :=
  filter (fun e => sel e = true) (elements_in (kids_of n)).

(** [$(sel)]: the elements of the document that satisfy [sel]. *)
Definition select (sel : node -> bool) (d : document) : list node :=
  filter (fun e => sel e = true) (elements_in d).

Definition is_element (n : node) : bool :=
  match n with Txt _ => false | El _ _ _ => true end.

(** [$(d).children().length === 0] *)
Definition is_leaf (n : node) : bool :=
  forallb (fun k => negb (is_element k)) (kids_of n).

Fixpoint assoc (k : string) (l : list (string * string)) : option string :=
  match l with
  | [] => None
  | (k', v) :: l' => if String.eqb k k' then Some v else assoc k l'
  end.

Definition attr (k : string) (n : node) : option string :=
  match n with Txt _ => None | El _ a _ => assoc k a end.

Definition has_tag (t : string) (n : node) : bool :=
  match n with Txt _ => false | El t' _ _ => String.eqb t t' end.

Fixpoint is_prefix (p s : string) : bool :=
  match p, s with
  | EmptyString, _ => true
  | String a p', String b s' => Ascii.eqb a b && is_prefix p' s'
  | String _ _, EmptyString => false
  end.

(** [s.includes(p)] *)
Fixpoint contains (p s : string) : bool :=
  is_prefix p s ||
  match s with
  | EmptyString => false
  | String _ s' => contains p s'
  end.

(** The white-space separated tokens of a [class] attribute. *)
Fixpoint tokens_from (cur : string) (s : string) : list string :=
  match s with
  | EmptyString => if String.eqb cur "" then [] else [cur]
  | String a s' =>
      if is_space a
      then if String.eqb cur "" then tokens_from "" s'
           else cur :: tokens_from "" s'
      else tokens_from (cur +:+ String a EmptyString) s'
  end.

Definition classes (n : node) : list string :=
  match attr "class" n with
  | Some c => tokens_from "" c
  | None => []
  end.

Definition has_class (c : string) (n : node) : bool :=
  existsb (String.eqb c) (classes n).

(** [[data-testid="v"]] *)
Definition testid_is (v : string) (n : node) : bool :=
  match attr "data-testid" n with
  | Some v' => String.eqb v v'
  | None => false
  end.

(** [[data-testid*="v"]] *)
Definition testid_has (v : string) (n : node) : bool :=
  match attr "data-testid" n with
  | Some v' => contains v v'
  | None => false
  end.

(** [div.c1.c2...] *)
Definition div_with (cs : list string) (n : node) : bool :=
  has_tag "div" n && forallb (fun c => has_class c n) cs.

(** [extractText($, el)] *)
Definition extractText (n : node) : option string :=
  or_null (Some (trim (collapse_ws (text n)))).

(** [extractText] of a selection: cheerio's [text()] joins the texts of
    all selected elements, and the empty selection has the text ['']. *)
Definition extractText_sel (sel : list node) : option string :=
  or_null (Some (trim (collapse_ws (text_all sel)))).

End Dom.

(* ===================================================================== *)
(** ** [scrapeFromHTML] *)
(* ===================================================================== *)

Module Scrape.
Import Text Rx Dom.

(** The object [scrapeFromHTML] returns. [None] is [null]; [statusText] is
    always a string. *)
Record snapshot : Type := Snapshot {
  statusText : string;
  statusLine : option string;
  etaLine : option string;
  store : option string;
  name : option string;
  address : option string;
  unit_ : option string;
  delivery_type : option string;
  delivery_note_typed : option string;
  cart : list string;
  delivered : bool
}.

Definition LF : ascii := ascii_of_N 10.

(** [/estimated/i] *)
Definition ESTIMATED_RX : regex := icase (lit "estimated").

(** [/^From\s+/] and [/^From\s+/i] *)
Definition FROM_RX : regex := seq [Bol; lit "From"; Plus space].
Definition FROM_RX_I : regex := icase FROM_RX.

(** [/(?:preparing|picking up|heading)\s+(.+?)['’]s\s+(?:order|way)/i] *)
Definition NAME_RX : regex :=
  icase (seq [ alts [lit "preparing"; lit "picking up"; lit "heading"];
               Plus space;
               Grp 1 (LazyPlus any);
               Alt (chr "'") (lit "’"); chr "s";
               Plus space;
               alts [lit "order"; lit "way"] ]).

(** [/\d{2,6}[^,\n]+,\s*[A-Za-z .'-]+,\s*[A-Z]{2}\s+\d{5}(?:-\d{4})?(?:,\s*(US|USA))?/i] *)
Definition ADDR_RX : regex :=
  icase (seq [ Range 2 6 digit;
               Plus (Cls (fun a => negb (Ascii.eqb a "," || Ascii.eqb a LF)));
               chr ","; Star space;
               Plus (Cls (fun a => is_alpha a || one_of " .'-" a));
               chr ","; Star space;
               Rep 2 (Cls is_upper);
               Plus space;
               Rep 5 digit;
               Opt (seq [chr "-"; Rep 4 digit]);
               Opt (seq [chr ","; Star space; Grp 1 (Alt (lit "US") (lit "USA"))]) ]).

Definition UNIT_LABELS : regex :=
  alts [ lit "apt"; lit "apartment"; lit "suite"; lit "ste";
         lit "floor"; lit "fl"; lit "unit"; lit "#" ].

(** [/(apt|apartment|suite|ste|floor|fl|unit|#)\s*[:\-]?\s*([A-Za-z0-9\- .#]+)$/i] *)
Definition UNIT_RX : regex :=
  icase (seq [ Grp 1 UNIT_LABELS; Star space;
               Opt (Cls (one_of ":-")); Star space;
               Grp 2 (Plus (Cls (fun a => is_alpha a || is_digit a || one_of "- .#" a)));
               Eol ]).

(** [/^(apt|apartment|suite|ste|floor|fl|unit|#)\b/i] *)
Definition UNIT_HINT_RX : regex := icase (seq [Bol; Grp 1 UNIT_LABELS; WordB]).

(** [/(leave (?:it )?at (?:my )?door|hand it to me|meet (?:at )?(?:the |my )?door|meet outside|deliver (?:to|at) (?:my )?door)/i] *)
Definition TYPE_RX : regex :=
  icase (Grp 1 (alts [
    seq [lit "leave "; Opt (lit "it "); lit "at "; Opt (lit "my "); lit "door"];
    lit "hand it to me";
    seq [lit "meet "; Opt (lit "at "); Opt (Alt (lit "the ") (lit "my ")); lit "door"];
    lit "meet outside";
    seq [lit "deliver "; Alt (lit "to") (lit "at"); lit " "; Opt (lit "my "); lit "door"] ])).

(** [/\b(standard|priority|rush|asap|express|economy|saver)\b/i] *)
Definition OPTION_RX : regex :=
  icase (seq [ WordB;
               Grp 1 (alts [ lit "standard"; lit "priority"; lit "rush"; lit "asap";
                             lit "express"; lit "economy"; lit "saver" ]);
               WordB ]).

(** [/^(address|delivery option|delivery options)$/i] *)
Definition LABEL_RX : regex :=
  icase (seq [ Bol;
               Grp 1 (alts [lit "address"; lit "delivery option"; lit "delivery options"]);
               Eol ]).

(** [/\b(delivered|order arrived)\b/i] *)
Definition DELIVERED_RX : regex :=
  icase (seq [WordB; Grp 1 (Alt (lit "delivered") (lit "order arrived")); WordB]).

(** [/Enjoy your order!/i] and [/Thanks for using Uber Eats\./i] *)
Definition ENJOY_RX : regex := icase (lit "Enjoy your order!").
Definition THANKS_RX : regex := icase (lit "Thanks for using Uber Eats.").

(** [s.replace(/\s{2,}/g, ' ')]: a run of two or more white-space
    characters becomes one space, a single one stays. The state is
    [None] outside a run, [Some (Some a)] after one white-space character
    [a], [Some None] inside a longer run. *)
Fixpoint squeeze_from (st : option (option ascii)) (s : string) : string :=
  match s with
  | EmptyString =>
      match st with
      | None => EmptyString
      | Some (Some a) => String a EmptyString
      | Some None => " "
      end
  | String c s' =>
      if is_space c
      then match st with
           | None => squeeze_from (Some (Some c)) s'
           | Some _ => squeeze_from (Some None) s'
           end
      else match st with
           | None => String c (squeeze_from None s')
           | Some (Some a) => String a (String c (squeeze_from None s'))
           | Some None => String " "%char (String c (squeeze_from None s'))
           end
  end.

Definition squeeze2 (s : string) : string := squeeze_from None s.

(** The texts of a list of elements, [null] ones dropped:
    [.map((_, d) => extractText($, d)).get().filter(Boolean)]. *)
Definition texts (els : list node) : list string :=
  omap extractText els.

Definition first_testid (v : string) (d : document) : option node :=
  head (select (testid_is v) d).

Definition leaves_of (c : node) : list node :=
  filter (fun e => is_leaf e = true) (Dom.find (has_tag "div") c).

(** The string a template literal shows for a nullable string. *)
Definition show (v : option string) : string := default "null" v.

(** [scanType(sel)]: the fold over the [div]s below the container. *)
Definition scan_step (acc : option string * option string) (el : node)
  : option string * option string :=
  let '(typeLbl, optionLbl) := acc in
  match extractText el with
  | None => acc
  | Some t =>
      if negb (truthy typeLbl) && test TYPE_RX t
      then (whole <$> exec TYPE_RX t, optionLbl)
      else if negb (truthy optionLbl) && test OPTION_RX t
      then match exec OPTION_RX t with
           | Some m =>
               let g := default "" (group 1 m) in
               (typeLbl, Some (toUpperCase (str_take 1 g) +:+ toLowerCase (str_drop 1 g)))
           | None => acc
           end
      else acc
  end.

Definition scanType (v : string) (d : document) : option string * option string :=
  match first_testid v d with
  | None => (None, None)
  | Some cont => foldl scan_step (None, None) (Dom.find (has_tag "div") cont)
  end.

(** The filter of the delivery-note loop: the leaf text is kept when none
    of the five patterns matches. *)
Definition is_note (t : string) : bool :=
  negb (test LABEL_RX t) && negb (test TYPE_RX t) && negb (test OPTION_RX t)
  && negb (test ADDR_RX t) && negb (test UNIT_HINT_RX t).

(** One cart line. *)
Definition cart_line (item : node) : option string :=
  let nameDiv := head (Dom.find (div_with ["bo"; "bp"; "bq"; "br"]) item) in
  let name := extractText (default item nameDiv) in
  let det :=
    default "" (extractText_sel
      (take 1 (Dom.find (fun e => div_with ["bo"; "cn"; "bq"; "dq"; "g6"] e
                              || div_with ["bo"; "cn"; "bq"; "dq"; "g7"] e) item))) in
  let line :=
    if negb (String.eqb det "")
    then Some (show name +:+ " — " +:+ det)
    else name in
  or_null ((fun l => trim (squeeze2 l)) <$> line).

Definition CART_ITEM : string := "order-summary-card-item".

(** The filter of the store scan: a text that starts with [From] and white
    space and has at most 80 characters. *)
Definition is_from (el : node) : bool :=
  match extractText el with
  | Some t => test FROM_RX t && (String.length t <=? 80)%nat
  | None => false
  end.

(** [$.root().text().replace(/\s+/g, ' ').trim()] *)
Definition textAll (html : document) : string := trim (collapse_ws (text_all html)).

(** [$('[data-testid="back-to-restaurants-primary-action"]').length > 0] *)
Definition backBtn (html : document) : bool :=
  (0 <? List.length (select (testid_is "back-to-restaurants-primary-action") html))%nat.

Definition STICKY : string := "active-order-sticky-eta".

Definition scrapeFromHTML (html : document) : snapshot :=
  let textAll := textAll html in
  (* STATUS + ETA *)
  let '(statusLine, etaLine, statusText) :=
    match first_testid STICKY html with
    | Some sticky =>
        let lines := texts (Dom.find (has_tag "div") sticky) in
        let statusLine := head lines in
        let etaLine := head (filter (fun t => test ESTIMATED_RX t = true) lines) in
        (statusLine, etaLine, join " " (omap id [statusLine; etaLine]))
    | None => (None, None, "Unknown status")
    end in
  (* STORE *)
  let fromNodes :=
    texts (filter (fun el => is_from el = true)
                  (select (fun e => has_tag "div" e || has_tag "span" e || has_tag "p" e) html)) in
  let store : option string :=
    (fun t => trim (Sanitize.replace_first FROM_RX_I "" t)) <$> head fromNodes in
  (* NAME *)
  let name : option string :=
    match exec NAME_RX (default "" (or_else (or_else statusLine (Some statusText)) (Some ""))) with
    | Some nm => group 1 nm
    | None => None
    end in
  (* ADDRESS *)
  let address : option string :=
    match first_testid "delivery-text-container-0" html with
    | Some c0 =>
        match head (filter (fun t => test ADDR_RX t = true) (texts (leaves_of c0))) with
        | Some hit => Some hit
        | None =>
            match extractText c0 with
            | Some raw => whole <$> exec ADDR_RX raw
            | None => None
            end
        end
    | None => None
    end in
  (* UNIT *)
  let c1 := first_testid "delivery-text-container-1" html in
  let unit : option string :=
    match c1 with
    | Some c1 =>
        match extractText c1 ≫= exec UNIT_RX with
        | Some m =>
            let label := default "" (group 1 m) in
            let value := default "" (group 2 m) in
            Some (capitalize label +:+ ": " +:+ trim value)
        | None =>
            head (filter (fun t => test UNIT_HINT_RX t = true) (texts (leaves_of c1)))
        end
    | None => None
    end in
  (* DELIVERY NOTE *)
  let delivery_note_typed : option string :=
    match c1 with
    | Some c1 => head (filter (fun t => is_note t = true) (rev (texts (leaves_of c1))))
    | None => None
    end in
  (* DELIVERY TYPE *)
  let t1 := scanType "delivery-text-container-1" html in
  let t2 := scanType "delivery-text-container-2" html in
  let typeLbl := or_else (fst t1) (fst t2) in
  let optLbl := or_else (snd t1) (snd t2) in
  let delivery_type : option string :=
    match or_null (Some (join " • " (omap or_null [typeLbl; optLbl]))) with
    | Some v => Some v
    | None => whole <$> exec TYPE_RX textAll
    end in
  (* CART *)
  let cart : list string :=
    omap cart_line (select (fun e => testid_is CART_ITEM e || testid_has CART_ITEM e) html) in
  (* Delivered? *)
  let delivered := test DELIVERED_RX statusText in
  let delivered :=
    if negb delivered
    then
      let enjoy := test ENJOY_RX textAll in
      let thanks := test THANKS_RX textAll in
      let backBtn := backBtn html in
      if (enjoy && thanks) || backBtn then true else delivered
    else delivered in
  {| statusText := statusText;
     statusLine := statusLine;
     etaLine := etaLine;
     store := store;
     name := name;
     address := address;
     unit_ := unit;
     delivery_type := delivery_type;
     delivery_note_typed := delivery_note_typed;
     cart := take 12 cart;
     delivered := delivered |}.

End Scrape.

(* ===================================================================== *)
(** ** JSON and dates *)
(* ===================================================================== *)

Module Json.
Import Text.

Inductive json : Type :=
| JNull
| JBool (b : bool)
| JNum (n : Z)
| JStr (s : string)
| JArr (items : list json)
| JObj (props : list (string * json)).

Definition QUOTE : ascii := ascii_of_N 34.
Definition BACKSLASH : ascii := ascii_of_N 92.

Definition hex_digit (n : N) : ascii :=
  if (n <? 10)%N then ascii_of_N (48 + n) else ascii_of_N (87 + n).

(** The escape of one character inside a JSON string. *)
Definition escape_char (a : ascii) : string :=
  let c := code a in
  if Ascii.eqb a QUOTE then String BACKSLASH (String QUOTE EmptyString)
  else if Ascii.eqb a BACKSLASH then String BACKSLASH (String BACKSLASH EmptyString)
  else if (c =? 8)%N then String BACKSLASH "b"
  else if (c =? 9)%N then String BACKSLASH "t"
  else if (c =? 10)%N then String BACKSLASH "n"
  else if (c =? 12)%N then String BACKSLASH "f"
  else if (c =? 13)%N then String BACKSLASH "r"
  else if (c <? 32)%N
       then String BACKSLASH ("u00" +:+ String (hex_digit (c / 16)) (String (hex_digit (c mod 16)) EmptyString))
       else String a EmptyString.

Fixpoint escape (s : string) : string :=
  match s with
  | EmptyString => EmptyString
  | String a s' => escape_char a +:+ escape s'
  end.

Definition quote (s : string) : string :=
  String QUOTE (escape s) +:+ String QUOTE EmptyString.

(** The decimal digits of a natural number, most significant first. The
    recursion is on a bound of the number of digits. *)
Fixpoint digits_fuel (fuel : nat) (n : N) (acc : string) : string :=
  match fuel with
  | O => acc
  | S fuel' =>
      let acc' := String (ascii_of_N (48 + n mod 10)) acc in
      if (n <? 10)%N then acc' else digits_fuel fuel' (n / 10) acc'
  end.

Definition show_N (n : N) : string := digits_fuel (S (N.to_nat (N.log2 n))) n "".

Definition show_Z (z : Z) : string :=
  if (z <? 0)%Z then "-" +:+ show_N (Z.to_N (- z)) else show_N (Z.to_N z).

(** A number written with at least [w] digits. *)
Fixpoint zeros (n : nat) : string :=
  match n with O => EmptyString | S n' => String "0"%char (zeros n') end.

Definition pad (w : nat) (z : Z) : string :=
  let d := show_Z z in zeros (w - String.length d) +:+ d.

(** [JSON.stringify(v)] *)
Fixpoint stringify (v : json) : string :=
  match v with
  | JNull => "null"
  | JBool true => "true"
  | JBool false => "false"
  | JNum n => show_Z n
  | JStr s => quote s
  | JArr items =>
      "[" +:+ join ","
        ((fix each (l : list json) : list string :=
            match l with
            | [] => []
            | x :: l' => stringify x :: each l'
            end) items) +:+ "]"
  | JObj props =>
      "{" +:+ join ","
        ((fix each (l : list (string * json)) : list string :=
            match l with
            | [] => []
            | (k, x) :: l' => (quote k +:+ ":" +:+ stringify x) :: each l'
            end) props) +:+ "}"
  end.

(** [new Date(ms).toISOString()] for a time in milliseconds since the
    epoch: the civil date of the day number, then the time of day. *)
Definition civil (days : Z) : Z * Z * Z :=
  let z := (days + 719468)%Z in
  let era := (z / 146097)%Z in
  let doe := (z - era * 146097)%Z in
  let yoe := ((doe - doe / 1460 + doe / 36524 - doe / 146096) / 365)%Z in
  let doy := (doe - (365 * yoe + yoe / 4 - yoe / 100))%Z in
  let mp := ((5 * doy + 2) / 153)%Z in
  let d := (doy - (153 * mp + 2) / 5 + 1)%Z in
  let m := (if (mp <? 10)%Z then mp + 3 else mp - 9)%Z in
  let y := (yoe + era * 400 + (if (m <=? 2)%Z then 1 else 0))%Z in
  (y, m, d).

Definition toISOString (ms : Z) : string :=
  let '(y, m, d) := civil (ms / 86400000) in
  let t := (ms mod 86400000)%Z in
  pad 4 y +:+ "-" +:+ pad 2 m +:+ "-" +:+ pad 2 d +:+ "T" +:+
  pad 2 (t / 3600000) +:+ ":" +:+ pad 2 (t / 60000 mod 60) +:+ ":" +:+
  pad 2 (t / 1000 mod 60) +:+ "." +:+ pad 3 (t mod 1000) +:+ "Z".

End Json.

(* ===================================================================== *)
(** ** Embeds and the payload fingerprint *)
(* ===================================================================== *)

Module Embed.
Import Text Sanitize Scrape Json.

(** The settings read from the environment. *)
Record config : Type := Config {
  BRAND : string;
  VOUCH_CHANNEL_ID : string;
  STORE_EMOJI : string;
  THEME : string
}.

(** The values the source falls back to. *)
Definition default_config : config :=
  {| BRAND := "116 GAMER";
     VOUCH_CHANNEL_ID := "1405983244096372839";
     STORE_EMOJI := "🏬";
     THEME := "modern" |}.

Definition NL : string := String LF EmptyString.

Definition field (name value : string) (inline : bool) : json :=
  JObj [("name", JStr name); ("value", JStr value); ("inline", JBool inline)].

Definition opt_field (name : string) (v : option string) (inline : bool) : list json :=
  match v with
  | Some x => [field name x inline]
  | None => []
  end.

(** What [EmbedBuilder.toJSON()] gives after [setColor], [setTitle],
    [setURL], [addFields], [setFooter], [setTimestamp] and, when there is an
    icon, [setThumbnail]: the properties in the order they were set, the
    time stamp as an ISO string. *)
Definition embed_json (cfg : config) (color : Z) (title : string) (link : option string)
    (fields : list json) (serverIconURL : option string) (now : Z) : json :=
  JObj ([("color", JNum color); ("title", JStr title)]
        ++ match or_null link with Some u => [("url", JStr u)] | None => [] end
        ++ [("fields", JArr fields);
            ("footer", JObj [("text", JStr ("Updated by " +:+ BRAND cfg))]);
            ("timestamp", JStr (toISOString now))]
        ++ match or_null serverIconURL with
           | Some u => [("thumbnail", JObj [("url", JStr u)])]
           | None => []
           end)%list.

(** [sanitizeValue] takes one argument: the second one that the address
    and the cart lines pass is dropped, so every field is cut at 1024. *)
Definition active_fields (cfg : config) (data : snapshot) : list json :=
  let top := sanitizeValue (or_else (or_else (statusLine data) (Some (statusText data)))
                                    (Some "Unknown status")) in
  let eta := if truthy (etaLine data)
             then NL +:+ "*" +:+ show (sanitizeValue (etaLine data)) +:+ "*"
             else "" in
  ([field "⏳ Order Status" (trim (show top +:+ eta)) false]
   ++ opt_field (STORE_EMOJI cfg +:+ " Store") (sanitizeValue (store data)) true
   ++ opt_field "👤 Name" (sanitizeValue (name data)) true
   ++ opt_field "ℹ️ Delivery Type" (sanitizeValue (delivery_type data)) true
   ++ opt_field "📝 Delivery Note" (sanitizeValue (delivery_note_typed data)) true
   ++ (if truthy (address data)
       then
         let addrBlock :=
           if truthy (unit_ data)
           then show (address data) +:+ NL +:+ show (unit_ data)
           else show (address data) in
         opt_field "📍 Delivery Address"
           ((fun v => "```" +:+ v +:+ "```") <$> sanitizeValue (Some addrBlock)) false
       else [])
   ++ (let items :=
         join NL (map (fun x => "• " +:+ x)
                      (omap (fun t => sanitizeValue (Some t)) (cart data))) in
       if negb (String.eqb items "")
       then [field (if String.eqb (THEME cfg) "classic"
                    then "🛒 Order Summary" else "🛒 Cart") items false]
       else []))%list.

(** [buildActiveEmbed(data, link, { serverIconURL })]; [now] is what
    [new Date()] reads. *)
Definition buildActiveEmbed (cfg : config) (data : snapshot) (link : option string)
    (serverIconURL : option string) (now : Z) : json :=
  embed_json cfg 3066993 "✅ Tracking Information" link
    (active_fields cfg data) serverIconURL now.

(** [buildDeliveredEmbed(data, link, { serverIconURL })] *)
Definition buildDeliveredEmbed (cfg : config) (data : snapshot) (link : option string)
    (serverIconURL : option string) (now : Z) : json :=
  let thanks := "Thanks for ordering with **" +:+ BRAND cfg
                +:+ "**! Hope you enjoyed your food and the experience." in
  let vouch := "If you’re satisfied with your order, drop a vouch in <#"
               +:+ VOUCH_CHANNEL_ID cfg +:+ "> for points towards a reward!" in
  embed_json cfg 2271846 "✅ Order Arrived!" link
    [ field "📦 Order Status" "Enjoy your order!" false;
      field "🙏 Thank You!" thanks false;
      field "📝 Leave a Vouch" vouch false ]
    serverIconURL now.

(** [linkRow(link, delivered = false)] *)
Definition linkRow (link : option string) (delivered : bool) : json :=
  JObj [("type", JNum 1);
        ("components",
         JArr [JObj [("type", JNum 2); ("style", JNum 5);
                     ("url", JStr (default "" (or_else link (Some "https://www.ubereats.com/"))));
                     ("label", JStr (if delivered then "Order Link" else "Track Order"))]])].

(** The snapshot-shaped argument [{ statusLine: text }] of the placeholder
    embeds: every other property is undefined, which [||] treats like the
    empty string. *)
Definition placeholder (text : string) : snapshot :=
  {| statusText := ""; statusLine := Some text; etaLine := None; store := None;
     name := None; address := None; unit_ := None; delivery_type := None;
     delivery_note_typed := None; cart := []; delivered := false |}.

(** [hashPayload(obj)]: the payloads hold strings, numbers, booleans,
    arrays and plain objects only, on which [JSON.stringify] does not
    throw, so the random fallback is never taken. *)
Definition hashPayload (obj : json) : string := stringify obj.

End Embed.

(* ===================================================================== *)
(** ** The job table, the runtime maps and the outside world *)
(* ===================================================================== *)

Module Runtime.
Import Text Rx Scrape Json Embed.

(** A row of the [jobs] table. The two bookkeeping time stamps
    [created_at] and [updated_at] are left out: nothing reads them.
    [last_error_at] holds the milliseconds that [new Date(text).getTime()]
    reads back from the stored ISO text. *)
Record job : Type := Job {
  rowid : nat;
  url : string;
  guild_id : string;
  channel_id : string;
  message_id : string;
  assignee_user_id : option string;
  requester_user_id : option string;
  static_name : option string;
  last_phase : option Phase;
  last_hash : option string;
  last_error_at : option Z
}.

(** The object kept in [states]: [{ lastPhase, staticName, assigneeUserId }]. *)
Record state : Type := State {
  lastPhase : option Phase;
  staticName : option string;
  assigneeUserId : option string
}.

(** The empty object [{}]. *)
Definition empty_state : state := State None None None.

(** What the program does to the outside world. *)
Inductive event : Type :=
| Edited (message : string) (payload : json)
| Sent (channel : string) (payload : json) (new_message : string)
| Pinged (channel : string) (content : string)
| DirectMessage (user : string) (text : string)
| OpsAlert (text : string).

(** The table and the process state. [timers], [pages] and [states] are
    the three [Map]s of the source; [states] holds references into [heap],
    where the state objects live, so that two keys can share one object
    and a write through one reference is seen through the other.
    [intervals] are the running [setInterval] timers, each with the message
    id its callback passes to [runOnceAndUpdate]; [closed] are the pages
    that were closed. *)
Record world : Type := World {
  jobs : list job;
  next_rowid : nat;
  timers : gmap string nat;
  pages : gmap string nat;
  states : gmap string nat;
  heap : gmap nat state;
  intervals : gmap nat string;
  next_handle : nat;
  closed : gset nat;
  out : list event
}.

Definition set_jobs (f : list job -> list job) (w : world) : world :=
  World (f (jobs w)) (next_rowid w) (timers w) (pages w) (states w) (heap w)
        (intervals w) (next_handle w) (closed w) (out w).
Definition set_next_rowid (n : nat) (w : world) : world :=
  World (jobs w) n (timers w) (pages w) (states w) (heap w)
        (intervals w) (next_handle w) (closed w) (out w).
Definition set_timers (f : gmap string nat -> gmap string nat) (w : world) : world :=
  World (jobs w) (next_rowid w) (f (timers w)) (pages w) (states w) (heap w)
        (intervals w) (next_handle w) (closed w) (out w).
Definition set_pages (f : gmap string nat -> gmap string nat) (w : world) : world :=
  World (jobs w) (next_rowid w) (timers w) (f (pages w)) (states w) (heap w)
        (intervals w) (next_handle w) (closed w) (out w).
Definition set_states (f : gmap string nat -> gmap string nat) (w : world) : world :=
  World (jobs w) (next_rowid w) (timers w) (pages w) (f (states w)) (heap w)
        (intervals w) (next_handle w) (closed w) (out w).
Definition set_heap (f : gmap nat state -> gmap nat state) (w : world) : world :=
  World (jobs w) (next_rowid w) (timers w) (pages w) (states w) (f (heap w))
        (intervals w) (next_handle w) (closed w) (out w).
Definition set_intervals (f : gmap nat string -> gmap nat string) (w : world) : world :=
  World (jobs w) (next_rowid w) (timers w) (pages w) (states w) (heap w)
        (f (intervals w)) (next_handle w) (closed w) (out w).
Definition set_next_handle (n : nat) (w : world) : world :=
  World (jobs w) (next_rowid w) (timers w) (pages w) (states w) (heap w)
        (intervals w) n (closed w) (out w).
Definition set_closed (f : gset nat -> gset nat) (w : world) : world :=
  World (jobs w) (next_rowid w) (timers w) (pages w) (states w) (heap w)
        (intervals w) (next_handle w) (f (closed w)) (out w).
Definition set_out (f : list event -> list event) (w : world) : world :=
  World (jobs w) (next_rowid w) (timers w) (pages w) (states w) (heap w)
        (intervals w) (next_handle w) (closed w) (f (out w)).

Definition empty_world : world :=
  World [] 1 ∅ ∅ ∅ ∅ ∅ 0 ∅ [].

(** *** Computations that change the world and may throw *)

Inductive result (A : Type) : Type :=
| Ok (a : A)
| Throw (msg : string).
Arguments Ok {A} a.
Arguments Throw {A} msg.

Definition M (A : Type) : Type := world -> result A * world.

Definition ret {A} (a : A) : M A := fun w => (Ok a, w).
Definition throw {A} (msg : string) : M A := fun w => (Throw msg, w).
Definition bind {A B} (m : M A) (k : A -> M B) : M B :=
  fun w => match m w with
           | (Ok a, w') => k a w'
           | (Throw e, w') => (Throw e, w')
           end.
Definition get : M world := fun w => (Ok w, w).
Definition modify (f : world -> world) : M unit := fun w => (Ok tt, f w).

(** [try { m } catch (e) { h(e) }] *)
Definition try_catch {A} (m : M A) (h : string -> M A) : M A :=
  fun w => match m w with
           | (Ok a, w') => (Ok a, w')
           | (Throw e, w') => h e w'
           end.

Notation "'let*' x := m 'in' k" := (bind m (fun x => k))
  (at level 10, x name, m at level 100, k at level 200).
Notation "m ;; k" := (bind m (fun _ => k))
  (at level 100, k at level 200, right associativity).

Definition emit (e : event) : M unit := modify (set_out (fun l => l ++ [e])).

(** *** The table: [DB] *)

Module DB.

(** [DB.insert(job)]: the row gets the next [AUTOINCREMENT] id. *)
Definition insert (j : job) : M unit :=
  modify (fun w =>
    set_next_rowid (S (next_rowid w))
      (set_jobs (fun rows =>
         rows ++ [Job (next_rowid w) (url j) (guild_id j) (channel_id j) (message_id j)
                      (assignee_user_id j) (requester_user_id j) (static_name j)
                      (last_phase j) (last_hash j) (last_error_at j)]) w)).

Definition has_message (m : string) (j : job) : bool := String.eqb (message_id j) m.

(** [DB.updateByMessageId(message_id, patch)]: every row with that message
    id is patched. *)
Definition updateByMessageId (m : string) (patch : job -> job) : M unit :=
  modify (set_jobs (map (fun j => if has_message m j then patch j else j))).

(** [DB.deleteByMessageId(message_id)] *)
Definition deleteByMessageId (m : string) : M unit :=
  modify (set_jobs (filter (fun j => has_message m j = false))).

(** [DB.getByMessageId(message_id)]: the first such row. *)
Definition getByMessageId (m : string) (rows : list job) : option job :=
  head (filter (fun j => has_message m j = true) rows).

End DB.

(** The three patches the source writes. *)
Definition patch_message_id (m : string) (j : job) : job :=
  Job (rowid j) (url j) (guild_id j) (channel_id j) m (assignee_user_id j)
      (requester_user_id j) (static_name j) (last_phase j) (last_hash j) (last_error_at j).

Definition patch_last_error_at (t : option Z) (j : job) : job :=
  Job (rowid j) (url j) (guild_id j) (channel_id j) (message_id j) (assignee_user_id j)
      (requester_user_id j) (static_name j) (last_phase j) (last_hash j) t.

Definition patch_published (h : string) (p : option Phase) (n : option string) (j : job) : job :=
  Job (rowid j) (url j) (guild_id j) (channel_id j) (message_id j) (assignee_user_id j)
      (requester_user_id j) n p (Some h) None.

(** *** What the outside world answers during one cycle *)

(** One load of the order page. *)
Inductive loading : Type :=
| Loaded (html : Dom.document)     (* [page.content()] *)
| AuthWall                         (* the page sits on [auth.uber.com] *)
| Failed (msg : string).           (* navigation or read threw *)

(** [msg.edit(payload)] *)
Inductive edit_result : Type :=
| EditOk
| UnknownMessage                   (* error code 10008 *)
| EditFailed (msg : string).

Record env : Type := Env {
  load : nat -> loading;            (* the n-th load of this cycle *)
  message_found : bool;             (* [fetchMessage] gives the message *)
  edit : edit_result;
  repost_channel : bool;            (* the channel can be fetched and is text based *)
  sent_id : option string;          (* [channel.send]: the new message, or a throw *)
  ping_channel : bool;              (* [channels.fetch] before a phase ping *)
  final_channel : bool;             (* [channels.fetch] before the final ping *)
  guild : option (option string);   (* [guilds.fetch]: a throw, or the guild's icon *)
  clock_check : Z;                  (* [Date.now()] of the throttle *)
  clock_stamp : Z;                  (* [nowIso()] of the error stamp *)
  clock_embed : Z                   (* [new Date()] of the embed *)
}.

(** *** [scrapeOrderPage] *)

Inductive scraped : Type :=
| RequiresLogin                    (* [{ requiresLogin: true }] *)
| Data (data : snapshot).

(** [/detached Frame/i] *)
Definition DETACHED_RX : regex := icase (lit "detached Frame").

Definition isDetachErr (msg : string) : bool := test DETACHED_RX msg.

(** The [for] loop of [scrapeOrderPage]: [left] rounds remain, [attempt] is
    the loop counter. The result comes with the number of loads made. *)
Fixpoint scrape_loop (left attempt : nat) (load : nat -> loading)
  : result scraped * nat :=
  match left with
  | O => (Throw "Unknown scrape error", attempt)
  | S left' =>
      match load attempt with
      | Loaded html => (Ok (Data (scrapeFromHTML html)), S attempt)
      | AuthWall => (Ok RequiresLogin, S attempt)
      | Failed msg =>
          if isDetachErr msg && Nat.eqb attempt 0
          then scrape_loop left' (S attempt) load
          else (Throw msg, S attempt)
      end
  end.

Definition scrapeOrderPage (load : nat -> loading) : result scraped * nat :=
  scrape_loop 2 0 load.

(** *** Timers, pages, direct messages *)

(** [clearInterval(timers.get(messageId))]: nothing happens when the map
    has no timer under that key. *)
Definition clearInterval (h : option nat) : M unit :=
  match h with
  | Some t => modify (set_intervals (delete t))
  | None => ret tt
  end.

(** [try { await page.close(...) } catch {}] *)
Definition close_page (p : nat) : M unit := modify (set_closed (fun c => {[p]} ∪ c)).

(** [dmRequester(userId, text)]: no user, no message; a failure to
    deliver is swallowed. *)
Definition dmRequester (userId : option string) (text : string) : M unit :=
  if truthy userId then emit (DirectMessage (default "" userId) text) else ret tt.

(** A fresh reference for a new state object. *)
Definition alloc (st : state) : M nat :=
  fun w => let l := fresh (dom (heap w)) in (Ok l, set_heap (<[l := st]>) w).

(** The object behind a reference. *)
Definition deref (l : nat) (w : world) : state := default empty_state (heap w !! l).

(** Moves the entry of a [Map] from one key to another, when there is one. *)
Definition move_key {V} (old new : string) (m : gmap string V) : gmap string V :=
  match m !! old with
  | Some v => <[new := v]> (delete old m)
  | None => m
  end.

(** *** [safeEditOrRepost] *)

Definition safeEditOrRepost (e : env) (jobRow : job) (payload : json) : M string :=
  let channel_id := channel_id jobRow in
  let message_id := message_id jobRow in
  let* edited :=
    (if message_found e
     then match edit e with
          | EditOk => emit (Edited message_id payload) ;; ret true
          | UnknownMessage => ret false
          | EditFailed msg => throw msg
          end
     else ret false) in
  if edited then ret message_id
  else
    (* Repost *)
    if negb (repost_channel e) then throw "Cannot access channel to repost."
    else
      match sent_id e with
      | None => throw "Cannot send message."
      | Some newMsg =>
          emit (Sent channel_id payload newMsg) ;;
          (* Update DB & move runtime keys *)
          DB.updateByMessageId message_id (patch_message_id newMsg) ;;
          modify (set_timers (move_key message_id newMsg)) ;;
          modify (set_pages (move_key message_id newMsg)) ;;
          modify (set_states (move_key message_id newMsg)) ;;
          ret newMsg
      end.

(** *** [runOnceAndUpdate] *)

Import Classify.

Definition with_name (n : option string) (d : snapshot) : snapshot :=
  Snapshot (statusText d) (statusLine d) (etaLine d) (store d) n (address d)
           (unit_ d) (delivery_type d) (delivery_note_typed d) (cart d) (delivered d).

(** Writes to the properties of a state object. *)
Definition write_staticName (l : nat) (v : option string) : M unit :=
  modify (fun w =>
    let st := deref l w in
    set_heap (<[l := State (lastPhase st) v (assigneeUserId st)]>) w).

Definition write_lastPhase (l : nat) (v : option Phase) : M unit :=
  modify (fun w =>
    let st := deref l w in
    set_heap (<[l := State v (staticName st) (assigneeUserId st)]>) w).

(** The name latch: the two guarded assignments, on the state object [l]
    and on the scraped data. *)
Definition latch_name (l : nat) (data : snapshot) : M snapshot :=
  let* w := get in
  (if negb (truthy (staticName (deref l w))) && truthy (name data)
   then write_staticName l (name data) else ret tt) ;;
  let* w := get in
  if truthy (staticName (deref l w)) && negb (truthy (name data))
  then ret (with_name (staticName (deref l w)) data)
  else ret data.

(** The phase of the cycle:
    [classifyPhase(data.statusLine || data.statusText) || st.lastPhase || null]. *)
Definition phase_of (data : snapshot) (st : state) : option Phase :=
  match classifyPhase (or_else (statusLine data) (Some (statusText data))) with
  | Some p => Some p
  | None => lastPhase st
  end.

Definition deliveredNow_of (data : snapshot) (phase : option Phase) : bool :=
  delivered data || bool_decide (phase = Some DELIVERED).

Definition label (phase : option Phase) : string :=
  match phase with
  | Some PREPARING => "Preparing"
  | Some HEADING => "Heading your way"
  | Some ALMOST_HERE => "Almost here"
  | _ => "Delivered"
  end.

Definition eta_suffix (data : snapshot) : string :=
  if truthy (etaLine data) then " — *" +:+ show (etaLine data) +:+ "*" else "".

(** The ping of the single role holder: on the first phase seen and on
    every change of phase. A failing [send] is swallowed, a failing
    [channels.fetch] throws. *)
Definition ping_phase (e : env) (job : job) (st : state) (phase : option Phase)
    (data : snapshot) : M unit :=
  if truthy (assigneeUserId st) then
    if negb (ping_channel e) then throw "Unknown Channel"
    else
      let who := "<@" +:+ show (assigneeUserId st) +:+ ">" in
      match lastPhase st, phase with
      | None, Some _ =>
          emit (Pinged (channel_id job)
                  (who +:+ " **Started tracking: " +:+ label phase +:+ "**" +:+ eta_suffix data))
      | Some q, Some p =>
          if bool_decide (p <> q)
          then emit (Pinged (channel_id job)
                       (who +:+ " **Status Update:** " +:+ label phase +:+ eta_suffix data))
          else ret tt
      | _, None => ret tt
      end
  else ret tt.

Definition active_payload (cfg : config) (data : snapshot) (url : string)
    (icon : option string) (now : Z) : json :=
  JObj [("content", JStr "");
        ("embeds", JArr [buildActiveEmbed cfg data (Some url) icon now]);
        ("components", JArr [linkRow (Some url) false])].

Definition delivered_payload (cfg : config) (data : snapshot) (url : string)
    (icon : option string) (now : Z) : json :=
  JObj [("content", JStr "");
        ("embeds", JArr [buildDeliveredEmbed cfg data (Some url) icon now]);
        ("components", JArr [linkRow (Some url) true])].

Definition login_payload (url : string) : json :=
  JObj [("content", JStr "⚠️ This link appears to require login on Uber. Please provide a **public** tracking link.");
        ("embeds", JArr []);
        ("components", JArr [linkRow (Some url) false])].

Definition LOGIN_DM : string :=
  "⚠️ Your Uber Eats link appears to require login. Please provide a **public** tracking link.".

(** The four steps that end a job, keyed as the source keys them:
    the maps by [messageId], the row by [rowKey]. *)
Definition teardown (messageId rowKey : string) (page : nat) : M unit :=
  let* w := get in
  clearInterval (timers w !! messageId) ;;
  modify (set_timers (delete messageId)) ;;
  close_page page ;;
  modify (set_pages (delete messageId)) ;;
  DB.deleteByMessageId rowKey ;;
  modify (set_states (delete messageId)).

(** [job.last_error_at && Date.now() - new Date(job.last_error_at).getTime() < 5 * 60_000] *)
Definition too_soon (e : env) (j : job) : bool :=
  match last_error_at j with
  | Some t => (clock_check e - t <? 5 * 60000)%Z
  | None => false
  end.

Definition FAULT_DM (m : string) : string :=
  "⚠️ Tracker had a scrape error for your order:" +:+ NL +:+ "`" +:+ m +:+ "`".

(** The [catch] around [scrapeOrderPage]. *)
Definition on_scrape_error (e : env) (job : job) (m : string) : M unit :=
  if isDetachErr m then ret tt            (* transient SPA *)
  else
    let tooSoon := too_soon e job in
    if negb tooSoon then
      dmRequester (requester_user_id job) (FAULT_DM m) ;;
      DB.updateByMessageId (message_id job) (patch_last_error_at (Some (clock_stamp e)))
    else ret tt.

(** The branch [if (data.requiresLogin)]. *)
Definition on_login_wall (e : env) (messageId : string) (job : job) (page : nat) : M unit :=
  safeEditOrRepost e job (login_payload (url job)) ;;
  dmRequester (requester_user_id job) LOGIN_DM ;;
  teardown messageId messageId page.

(** [states.get(messageId) || {}]: the reference of the state object of
    the job, or of a new empty object. *)
Definition state_ref (messageId : string) : M nat :=
  let* w := get in
  match states w !! messageId with
  | Some l => ret l
  | None => alloc empty_state
  end.

(** The phase of the cycle is computed, the role holder is pinged, and
    the phase is written to [st.lastPhase]. *)
Definition note_phase (e : env) (job : job) (st : nat) (data : snapshot)
  : M (option Phase) :=
  let* w := get in
  let phase := phase_of data (deref st w) in
  ping_phase e job (deref st w) phase data ;;
  write_lastPhase st phase ;;
  ret phase.

(** The rest of the [try] block, in three parts. First the name latch,
    the phase and the ping. The reference of the state object, the data
    with the latched name and the phase are handed on. *)
Definition observe (e : env) (messageId : string) (job : job) (data0 : snapshot)
  : M (nat * snapshot * option Phase) :=
  let* st := state_ref messageId in
  (* Name latch *)
  let* data := latch_name st data0 in
  (* Phase + delivered *)
  let* phase := note_phase e job st data in
  ret (st, data, phase).

(** The payload of the cycle. *)
Definition payload_of (cfg : config) (e : env) (job : job) (data : snapshot)
    (deliveredNow : bool) (serverIconURL : option string) : json :=
  if deliveredNow
  then delivered_payload cfg data (url job) serverIconURL (clock_embed e)
  else active_payload cfg data (url job) serverIconURL (clock_embed e).

(** Then the embed is built and, when its fingerprint is not the stored
    one, published and recorded in the row. *)
Definition publish (cfg : config) (e : env) (job : job) (st : nat) (data : snapshot)
    (deliveredNow : bool) : M unit :=
  (* Build embed *)
  match guild e with
  | None => throw "Unknown Guild"
  | Some serverIconURL =>
      let payload := payload_of cfg e job data deliveredNow serverIconURL in
      (* Edit only on change *)
      let h := hashPayload payload in
      if negb (bool_decide (Some h = last_hash job)) then
        safeEditOrRepost e job payload ;;
        let* w := get in
        DB.updateByMessageId (message_id job)
          (patch_published h (lastPhase (deref st w)) (or_null (staticName (deref st w))))
      else ret tt
  end.

Definition ARRIVED : string := "> ✅ **Order Arrived!** Enjoy your order!".

(** Last the job is ended when it is delivered, and the state object is
    put back into [states] when it is not. *)
Definition conclude (e : env) (messageId : string) (job : job) (page : nat) (st : nat)
    (deliveredNow : bool) : M unit :=
  (* Delivered -> finalize *)
  if deliveredNow then
    let* w := get in
    (if truthy (assigneeUserId (deref st w)) then
       if negb (final_channel e) then throw "Unknown Channel"
       else emit (Pinged (channel_id job)
                    ("<@" +:+ show (assigneeUserId (deref st w)) +:+ ARRIVED))
     else ret tt) ;;
    teardown messageId (message_id job) page
  else
    modify (set_states (<[message_id job := st]>)).

Definition on_snapshot (cfg : config) (e : env) (messageId : string) (job : job)
    (page : nat) (data0 : snapshot) : M unit :=
  let* seen := observe e messageId job data0 in
  let '(st, data, phase) := seen in
  let deliveredNow := deliveredNow_of data phase in
  publish cfg e job st data deliveredNow ;;
  conclude e messageId job page st deliveredNow.

(** The outer [catch]: the operators are told. *)
Definition report (m : string) : M unit :=
  emit (OpsAlert ("⚠️ runOnceAndUpdate: " +:+ m)).

(** [runOnceAndUpdate(messageId)]. It never throws: the outer [catch]
    reports to the operators and returns. *)
Definition runOnceAndUpdate (cfg : config) (e : env) (messageId : string) : M unit :=
  let* w := get in
  match DB.getByMessageId messageId (jobs w) with
  | None =>
      clearInterval (timers w !! messageId) ;;
      modify (set_timers (delete messageId))
  | Some job =>
      match pages w !! messageId with
      | None => ret tt
      | Some page =>
          try_catch
            (match fst (scrapeOrderPage (load e)) with
             | Throw m => on_scrape_error e job m
             | Ok RequiresLogin => on_login_wall e messageId job page
             | Ok (Data data) => on_snapshot cfg e messageId job page data
             end)
            report
      end
  end.

(** The world after one cycle. *)
Definition cycle (cfg : config) (e : env) (messageId : string) (w : world) : world :=
  snd (runOnceAndUpdate cfg e messageId w).

(** One firing of the interval [h]: its callback calls [runOnceAndUpdate]
    with the message id it was created with. *)
Definition tick (cfg : config) (e : env) (h : nat) (w : world) : world :=
  match intervals w !! h with
  | Some messageId => cycle cfg e messageId w
  | None => w
  end.

(** *** [startJob] *)

(** What the outside world answers to [startJob]. *)
Record start_env : Type := StartEnv {
  assignee : option string;         (* [resolveChannelAssignee] *)
  channel_icon : option string;     (* [getGuildIconURL(channel.guild)] *)
  first_message : option string;    (* [channel.send]: the placeholder, or a throw *)
  start_clock : Z;
  first_cycle : env
}.

Definition new_handle : M nat :=
  fun w => (Ok (next_handle w), set_next_handle (S (next_handle w)) w).

Definition start_payload (cfg : config) (url : string) (icon : option string) (now : Z) : json :=
  JObj [("embeds", JArr [buildActiveEmbed cfg (placeholder "Starting…") (Some url) icon now]);
        ("components", JArr [linkRow (Some url) false])].

(** The first half of [startJob]: the page, the placeholder message, the
    row, and the entries of [pages] and [states]. *)
Definition register (cfg : config) (se : start_env) (guildId channelId url : string)
    (requesterUserId : option string) : M string :=
  let* page := new_handle in
  let assigneeUserId := assignee se in
  (* Initial message *)
  match first_message se with
  | None => throw "Cannot send message."
  | Some msg =>
      emit (Sent channelId (start_payload cfg url (channel_icon se) (start_clock se)) msg) ;;
      (* Persist *)
      DB.insert (Job 0 url guildId channelId msg (or_null assigneeUserId)
                     (or_null requesterUserId) None None None None) ;;
      (* Runtime *)
      modify (set_pages (<[msg := page]>)) ;;
      let* st := alloc (State None None assigneeUserId) in
      modify (set_states (<[msg := st]>)) ;;
      ret msg
  end.

(** The last two lines of [startJob]: [setInterval] and [timers.set]. *)
Definition schedule (msg : string) : M unit :=
  let* timer := new_handle in
  modify (set_intervals (<[timer := msg]>)) ;;
  modify (set_timers (<[msg := timer]>)).

(** [startJob(channel, url, requesterUserId)]; the channel is given by its
    guild and its own id. The message id is returned. *)
Definition startJob (cfg : config) (se : start_env) (guildId channelId url : string)
    (requesterUserId : option string) : M string :=
  let* msg := register cfg se guildId channelId url requesterUserId in
  runOnceAndUpdate cfg (first_cycle se) msg ;;
  schedule msg ;;
  ret msg.

End Runtime.

(* ===================================================================== *)
(** ** Sample pages, answers and worlds *)
(* ===================================================================== *)

Module Samples.
Import Text Rx Dom Scrape Json Embed Runtime.

Definition div (attrs : list (string * string)) (kids : list node) : node :=
  El "div" attrs kids.

Definition testid (v : string) : list (string * string) := [("data-testid", v)].

(** A status widget with a headline and, when given, an ETA line. *)
Definition widget (headline : string) (eta : option string) : node :=
  div (testid STICKY)
    (div [] [Txt headline]
     :: match eta with Some t => [div [] [Txt t]] | None => [] end).

Definition page_preparing : document :=
  [widget "Preparing John's order" (Some "Estimated arrival 5:30 PM")].

(** The same order later: the headline no longer names the customer. *)
Definition page_almost : document :=
  [widget "Almost there" (Some "Estimated arrival 5:32 PM")].


(** The classifier sees [order arrived], the word-bounded pattern of the
    delivered flag does not. *)
Definition page_preorder : document := [widget "Preorder arrived" None].

Definition page_unknown : document := [widget "Hello" None].

Definition URL : string := "https://www.ubereats.com/orders/abc".

(** Every call answers: the page loads as [html], the message is there
    and the edit goes through; [t] is the time of all three clock reads. *)
Definition calm (html : document) (t : Z) : env :=
  {| load := fun _ => Loaded html;
     message_found := true; edit := EditOk;
     repost_channel := true; sent_id := Some "m2";
     ping_channel := true; final_channel := true;
     guild := Some None;
     clock_check := t; clock_stamp := t; clock_embed := t |}.


(** Every load of the page fails with [msg]. *)
Definition faulty (msg : string) (t : Z) : env :=
  {| load := fun _ => Failed msg;
     message_found := true; edit := EditOk;
     repost_channel := true; sent_id := Some "m2";
     ping_channel := true; final_channel := true;
     guild := Some None;
     clock_check := t; clock_stamp := t; clock_embed := t |}.

(** The page redirects to the login domain. *)
Definition walled (t : Z) : env :=
  {| load := fun _ => AuthWall;
     message_found := true; edit := EditOk;
     repost_channel := true; sent_id := Some "m2";
     ping_channel := true; final_channel := true;
     guild := Some None;
     clock_check := t; clock_stamp := t; clock_embed := t |}.

Definition NET_FAULT : string := "net::ERR_CONNECTION_RESET at " +:+ URL.
Definition FRAME_FAULT : string := "Navigating frame was detached Frame".

Definition starting (first : env) : start_env :=
  {| assignee := Some "u7"; channel_icon := None; first_message := Some "m1";
     start_clock := 1000; first_cycle := first |}.

Definition start (first : env) : world :=
  snd (startJob default_config (starting first) "g1" "c1" URL (Some "u1") empty_world).

(** A job right after its registration, before its first cycle. *)
Definition registered : world :=
  snd (register default_config (starting (calm page_preparing 2000)) "g1" "c1" URL
         (Some "u1") empty_world).

(** A job whose first cycle, at second 2, saw [page_preparing]. *)
Definition started : world := start (calm page_preparing 2000).

(** A job whose link turned out to need a login in the first cycle. *)
Definition started_walled : world := start (walled 2000).

(** A minute later the same page is seen again. *)
Definition second_cycle : world :=
  tick default_config (calm page_preparing 62000) 1 started.


(** A fault a minute after the start, a good cycle on a page that has
    changed a minute later, and a fault again a minute after that. *)
Definition fault_1 : world :=
  tick default_config (faulty NET_FAULT 62000) 1 started.
Definition recovered : world :=
  tick default_config (calm page_almost 122000) 1 fault_1.
Definition fault_2 : world :=
  tick default_config (faulty NET_FAULT 182000) 1 recovered.

Definition is_dm (ev : event) : bool :=
  match ev with DirectMessage _ _ => true | _ => false end.

(** The events a step added: [out] only grows, at its end. *)
Definition added (before after : world) : list event :=
  skipn (List.length (out before)) (out after).

End Samples.

(* ===================================================================== *)
(** ** Relations between the worlds before and after a step *)
(* ===================================================================== *)

Module Rel.
Import Text Scrape Json Embed Runtime.

(** The state object a cycle for [messageId] works on, with its
    reference: the one in [states], or a new empty one. *)
Definition the_state (messageId : string) (w : world) : nat * state :=
  match states w !! messageId with
  | Some l => (l, deref l w)
  | None => (fresh (dom (heap w)), empty_state)
  end.

(** What the two assignments of the name latch leave in [st.staticName]
    and in [data]. *)
Definition latched (st0 : state) (data0 : snapshot) : option string :=
  if negb (truthy (staticName st0)) && truthy (name data0)
  then name data0 else staticName st0.

Definition latched_data (st0 : state) (data0 : snapshot) : snapshot :=
  if truthy (latched st0 data0) && negb (truthy (name data0))
  then with_name (latched st0 data0) data0 else data0.

(** Everything but the table, the heap and the events is the same. *)
Definition same_maps (w w' : world) : Prop :=
  timers w' = timers w /\ pages w' = pages w /\ states w' = states w
  /\ intervals w' = intervals w /\ closed w' = closed w
  /\ next_handle w' = next_handle w /\ next_rowid w' = next_rowid w.

(** The events of [w'] are those of [w] and then some that satisfy [ok]. *)
Definition adds (ok : event -> Prop) (w w' : world) : Prop :=
  exists evs, out w' = out w ++ evs /\ Forall ok evs.

(** Every state object of [w] is still there in [w'], changed within [P]. *)
Definition heap_rel (P : state -> state -> Prop) (w w' : world) : Prop :=
  forall l st, heap w !! l = Some st ->
    exists st', heap w' !! l = Some st' /\ P st st'.

(** Every row of [w'] is a row of [w], changed within [Q]. *)
Definition rows_rel (Q : job -> job -> Prop) (w w' : world) : Prop :=
  forall j', j' ∈ jobs w' -> exists j, j ∈ jobs w /\ rowid j' = rowid j /\ Q j j'.

Definition is_ping (ev : event) : Prop :=
  match ev with Pinged _ _ => True | _ => False end.

Definition is_alert (ev : event) : Prop :=
  match ev with OpsAlert _ => True | _ => False end.

(** The events a cycle may add when its payload is [p]: an edit or a new
    message carries [p]. *)
Definition carries (p : json) (ev : event) : Prop :=
  match ev with
  | Edited _ q => q = p
  | Sent _ q _ => q = p
  | _ => True
  end.

(** The latched name of a state object stays what it is. *)
Definition name_kept (st st' : state) : Prop :=
  truthy (staticName st) = true -> staticName st' = staticName st.

(** A phase that is set stays set. *)
Definition phase_kept (st st' : state) : Prop :=
  is_Some (lastPhase st) -> is_Some (lastPhase st').

(** The coupling the specification asks for: a message id with a timer has
    a page, a state entry and exactly one row. *)
Definition coupled (w : world) : Prop :=
  forall messageId h, timers w !! messageId = Some h ->
    is_Some (pages w !! messageId) /\ is_Some (states w !! messageId)
    /\ List.length (filter (fun j => DB.has_message messageId j = true) (jobs w)) = 1%nat.

(** No trace of [messageId] is left. *)
Definition gone (messageId : string) (w : world) : Prop :=
  timers w !! messageId = None /\ pages w !! messageId = None
  /\ states w !! messageId = None /\ DB.getByMessageId messageId (jobs w) = None.

(** The edit goes through on the message that is there. *)
Definition in_place (e : env) : bool :=
  message_found e && match edit e with EditOk => true | _ => false end.

(** What [publish] may do to a row: nothing to its phase and name, or, on a
    row of the job, the phase and the name of the cycle. *)
Definition published_row (m : string) (p : option Phase) (n : option string)
    (j j' : job) : Prop :=
  (last_phase j' = last_phase j /\ static_name j' = static_name j)
  \/ (message_id j = m /\ last_phase j' = p /\ static_name j' = n).

(** The world after the four steps of [teardown]. *)
Definition torn_down (messageId rowKey : string) (page : nat) (w : world) : world :=
  set_states (delete messageId)
    (set_jobs (filter (fun j => DB.has_message rowKey j = false))
       (set_pages (delete messageId)
          (set_closed (fun c => {[page]} ∪ c)
             (set_timers (delete messageId)
                (match timers w !! messageId with
                 | Some t => set_intervals (delete t) w
                 | None => w
                 end))))).

End Rel.

(* ===================================================================== *)
(** ** Theorems *)
(* ===================================================================== *)

Import Text Rx Dom Sanitize Scrape Json Embed Classify Runtime Samples Rel.

(** *** The phase classifier *)

(** C3, counterexample. The claim asks for [PREPARING] on the headline
    "Your order is being prepared"; none of the four patterns contains
    "prepared", so the classifier does not give that phase. *)
Lemma classifyPhase_prepared_counterexample :
  ~ (classifyPhase (Some "Your order is being prepared") = Some PREPARING).
Proof. vm_compute. discriminate. Qed.

(** C3, amended. [classifyPhase] tries its four patterns in order on the
    lower-cased headline and the first that matches decides, so a headline
    that matches two rules gets the phase of the earlier one. It gives
    [HEADING] for "Heading your way", [ALMOST_HERE] for "Almost there",
    [DELIVERED] for "Your order has been delivered" and nothing for
    "Hello"; it gives nothing for "Your order is being prepared" either,
    and [PREPARING] for a headline with "preparing" such as
    "Preparing your order". *)
Theorem classifyPhase_rules :
  (forall h : option string,
     let s := toLowerCase (default "" h) in
     classifyPhase h =
       if test PREPARING_RX s then Some PREPARING
       else if test HEADING_RX s then Some HEADING
       else if test ALMOST_RX s then Some ALMOST_HERE
       else if test Classify.DELIVERED_RX s then Some DELIVERED
       else None)
  /\ classifyPhase (Some "Heading your way") = Some HEADING
  /\ classifyPhase (Some "Almost there") = Some ALMOST_HERE
  /\ classifyPhase (Some "Your order has been delivered") = Some DELIVERED
  /\ classifyPhase (Some "Hello") = None
  /\ classifyPhase (Some "Your order is being prepared") = None
  /\ classifyPhase (Some "Preparing your order") = Some PREPARING
  /\ classifyPhase (Some "Order received, heading your way") = Some PREPARING
  /\ classifyPhase (Some "Delivered, driver is nearby") = Some ALMOST_HERE
  /\ classifyPhase None = None.
Proof.
  split; [intros h; reflexivity|].
  split_and!; vm_compute; reflexivity.
Qed.

(** *** The delivered flag *)



(** *** The extraction engine *)




(** *** Publishing only on change *)

(** C1. The job [started] saw [page_preparing] in its first cycle, at
    second 2, and stored the fingerprint of what it published. A minute
    later the page, and so the snapshot, is the same, and so is the state
    of the job; the payload of that cycle differs from the published one
    in the time stamp of the embed alone, its fingerprint is not the
    stored one, and the message is edited again. With the clock of the
    first cycle the same tick publishes nothing. *)
Theorem unchanged_snapshot_is_republished :
  let data := scrapeFromHTML page_preparing in
  let published := active_payload default_config data URL None 2000 in
  let again := active_payload default_config data URL None 62000 in
  last_hash <$> DB.getByMessageId "m1" (jobs started) = Some (Some (hashPayload published))
  /\ String.eqb (hashPayload again) (hashPayload published) = false
  /\ added started second_cycle = [Edited "m1" again]
  /\ last_hash <$> DB.getByMessageId "m1" (jobs second_cycle) = Some (Some (hashPayload again))
  /\ added started (tick default_config (calm page_preparing 2000) 1 started) = [].
Proof. split_and!; vm_compute; reflexivity. Qed.

(** *** A message that was lost *)


(** *** How the parts of a cycle change the world *)

Arguments scrapeFromHTML : simpl never.
Arguments classifyPhase : simpl never.
Arguments hashPayload : simpl never.
Arguments payload_of : simpl never.
Arguments login_payload : simpl never.
Arguments isDetachErr : simpl never.
Arguments truthy : simpl never.
Arguments show : simpl never.
Arguments or_null : simpl never.
Arguments phase_of : simpl never.
Arguments label : simpl never.
Arguments eta_suffix : simpl never.
Arguments String.append : simpl never.
Arguments DB.getByMessageId : simpl never.
Arguments scrapeOrderPage : simpl never.

Lemma deref_insert l st w :
  deref l (set_heap (<[l := st]>) w) = st.
Proof. unfold deref. cbn [heap set_heap]. by rewrite lookup_insert_eq. Qed.

Lemma deref_lookup l st w : heap w !! l = Some st -> deref l w = st.
Proof. unfold deref. by intros ->. Qed.

Lemma deref_heap l w w' : heap w' = heap w -> deref l w' = deref l w.
Proof. unfold deref. by intros ->. Qed.

Lemma fresh_heap (w : world) : heap w !! fresh (dom (heap w)) = None.
Proof. apply not_elem_of_dom, is_fresh. Qed.

Lemma same_maps_refl w : same_maps w w.
Proof. by repeat split. Qed.

Lemma same_maps_trans a b c : same_maps a b -> same_maps b c -> same_maps a c.
Proof.
  intros (?&?&?&?&?&?&?) (?&?&?&?&?&?&?). repeat split; congruence.
Qed.

Lemma adds_refl ok w : adds ok w w.
Proof. exists []. split; [by rewrite app_nil_r | constructor]. Qed.

Lemma adds_trans ok a b c : adds ok a b -> adds ok b c -> adds ok a c.
Proof.
  intros (e1 & H1 & F1) (e2 & H2 & F2). exists (e1 ++ e2). split.
  - by rewrite H2, H1, app_assoc.
  - by apply Forall_app.
Qed.

Lemma adds_weaken (ok ok' : event -> Prop) w w' :
  (forall ev, ok ev -> ok' ev) -> adds ok w w' -> adds ok' w w'.
Proof.
  intros H (evs & E & F). exists evs. split; [done|].
  eapply Forall_impl; eauto.
Qed.

Lemma adds_one (ok : event -> Prop) ev w :
  ok ev -> adds ok w (set_out (fun l => l ++ [ev]) w).
Proof. intros H. exists [ev]. split; [done | by constructor]. Qed.


Lemma phase_of_lastPhase data st st' :
  lastPhase st' = lastPhase st -> phase_of data st' = phase_of data st.
Proof. unfold phase_of. by intros ->. Qed.

Lemma phase_of_with_name n data st :
  phase_of (with_name n data) st = phase_of data st.
Proof. reflexivity. Qed.

Lemma phase_of_latched st0 data0 st :
  phase_of (latched_data st0 data0) st = phase_of data0 st.
Proof. unfold latched_data. by destruct (_ && _). Qed.

Lemma delivered_latched st0 data0 :
  delivered (latched_data st0 data0) = delivered data0.
Proof. unfold latched_data. by destruct (_ && _). Qed.

(** [state_ref] returns the reference of [the_state]; a new object is
    put on the heap, empty. *)
Lemma state_ref_eq messageId w :
  state_ref messageId w =
    (Ok (fst (the_state messageId w)),
     match states w !! messageId with
     | Some _ => w
     | None => set_heap (<[fst (the_state messageId w) := empty_state]>) w
     end).
Proof.
  unfold state_ref, the_state, alloc, bind, get, ret.
  by destruct (states w !! messageId).
Qed.

(** The name latch as one equation. *)
Lemma latch_name_eq l data0 w :
  latch_name l data0 w =
    (Ok (latched_data (deref l w) data0),
     if negb (truthy (staticName (deref l w))) && truthy (name data0)
     then set_heap (<[l := State (lastPhase (deref l w)) (name data0)
                                 (assigneeUserId (deref l w))]>) w
     else w).
Proof.
  unfold latch_name, latched_data, latched, write_staticName, bind, get, modify, ret.
  destruct (negb (truthy (staticName (deref l w))) && truthy (name data0)) eqn:E.
  - rewrite deref_insert. cbn [staticName].
    destruct (truthy (name data0) && negb (truthy (name data0))); reflexivity.
  - destruct (truthy (staticName (deref l w)) && negb (truthy (name data0))); reflexivity.
Qed.

Lemma adds_same ok w w' : out w' = out w -> adds ok w w'.
Proof. intros H. exists []. split; [by rewrite app_nil_r | constructor]. Qed.

(** Goals about a world that differs from another in one component. *)
Ltac frame :=
  first [ reflexivity
        | apply same_maps_refl
        | apply adds_refl
        | by apply adds_one
        | by apply adds_same
        | by (unfold same_maps; split_and!) ].

(** The ping changes the events alone. *)
Lemma ping_phase_spec e job st phase data w :
  let r := fst (ping_phase e job st phase data w) in
  let w1 := snd (ping_phase e job st phase data w) in
  jobs w1 = jobs w /\ heap w1 = heap w /\ same_maps w w1 /\ adds is_ping w w1
  /\ (r = Ok tt \/ ((exists msg, r = Throw msg) /\ ping_channel e = false /\ w1 = w)).
Proof.
  cbv zeta. unfold ping_phase, emit, modify, ret, throw.
  destruct (truthy (assigneeUserId st)); [|split_and!; try frame; by left].
  destruct (ping_channel e); cbn [negb].
  2: { split_and!; try frame. right. eauto. }
  destruct (lastPhase st), phase; try destruct (bool_decide _); cbn [fst snd];
    split_and!; try frame; by left.
Qed.

Lemma note_phase_spec e job l data w :
  let st1 := deref l w in
  let p := phase_of data st1 in
  let r := fst (note_phase e job l data w) in
  let w1 := snd (note_phase e job l data w) in
  jobs w1 = jobs w /\ same_maps w w1 /\ adds is_ping w w1
  /\ ((r = Ok p
       /\ heap w1 = <[l := State p (staticName st1) (assigneeUserId st1)]> (heap w))
      \/ ((exists msg, r = Throw msg) /\ ping_channel e = false /\ heap w1 = heap w)).
Proof.
  cbv zeta. unfold note_phase, bind, get.
  pose proof (ping_phase_spec e job (deref l w) (phase_of data (deref l w)) data w)
    as (Hj & Hh & Hm & Ha & Hr).
  destruct (ping_phase e job (deref l w) (phase_of data (deref l w)) data w) as [r1 w1].
  cbn [fst snd] in *.
  destruct Hr as [-> | ((msg & ->) & Hp & ->)]; cbn [fst snd].
  - unfold write_lastPhase, modify, ret. cbn [fst snd].
    rewrite (deref_heap l w w1 Hh). split_and!; try done.
    left. split; [done|]. cbn [heap set_heap]. by rewrite Hh.
  - split_and!; try frame. right. eauto.
Qed.

Lemma the_state_deref messageId w :
  deref (fst (the_state messageId w))
        (match states w !! messageId with
         | Some _ => w
         | None => set_heap (<[fst (the_state messageId w) := empty_state]>) w
         end)
  = snd (the_state messageId w).
Proof.
  unfold the_state. destruct (states w !! messageId); cbn [fst snd]; [done|].
  apply deref_insert.
Qed.

(** [observe] touches the heap at the state object of the job and the
    events, by pings, and nothing else. When it returns, the object holds
    the phase of the cycle and the latched name. *)
Lemma observe_spec e messageId job data0 w :
  let l := fst (the_state messageId w) in
  let st0 := snd (the_state messageId w) in
  let n1 := latched st0 data0 in
  let data1 := latched_data st0 data0 in
  let p := phase_of data0 st0 in
  let r := fst (observe e messageId job data0 w) in
  let w1 := snd (observe e messageId job data0 w) in
  jobs w1 = jobs w /\ same_maps w w1 /\ adds is_ping w w1
  /\ (forall l', l' <> l -> heap w1 !! l' = heap w !! l')
  /\ ((r = Ok (l, data1, p)
       /\ heap w1 !! l = Some (State p n1 (assigneeUserId st0)))
      \/ ((exists msg, r = Throw msg) /\ ping_channel e = false
          /\ (heap w1 !! l = Some (State (lastPhase st0) n1 (assigneeUserId st0))
              \/ (heap w1 !! l = heap w !! l /\ n1 = staticName st0)))).
Proof.
  cbv zeta. unfold observe, bind. rewrite state_ref_eq.
  pose proof (the_state_deref messageId w) as Hd.
  set (l := fst (the_state messageId w)) in *.
  set (st0 := snd (the_state messageId w)) in *.
  set (wa := match states w !! messageId with Some _ => w | None => _ end) in *.
  assert (Hwa : jobs wa = jobs w /\ same_maps w wa /\ out wa = out w
                 /\ (forall l', l' <> l -> heap wa !! l' = heap w !! l')
                 /\ (heap wa !! l = Some st0 \/ heap wa = heap w)).
  { subst wa. destruct (states w !! messageId); split_and!; try frame; auto.
    - intros l' Hl'. cbn [heap set_heap]. by rewrite lookup_insert_ne.
    - left. rewrite <- Hd. unfold deref. cbn [heap set_heap].
      by rewrite lookup_insert_eq. }
  destruct Hwa as (Hja & Hma & Hoa & Hha & Hla).
  rewrite latch_name_eq, Hd.
  set (wb := if negb (truthy (staticName st0)) && truthy (name data0) then _ else wa).
  assert (Hwb : jobs wb = jobs wa /\ same_maps wa wb /\ out wb = out wa
                /\ (forall l', l' <> l -> heap wb !! l' = heap wa !! l')
                /\ staticName (deref l wb) = latched st0 data0
                /\ lastPhase (deref l wb) = lastPhase st0
                /\ assigneeUserId (deref l wb) = assigneeUserId st0
                /\ (heap wb !! l = Some (State (lastPhase st0) (latched st0 data0)
                                               (assigneeUserId st0))
                    \/ (heap wb = heap wa /\ latched st0 data0 = staticName st0))).
  { subst wb. unfold latched.
    destruct (negb (truthy (staticName st0)) && truthy (name data0)).
    - rewrite deref_insert. split_and!; try frame.
      + intros l' Hl'. cbn [heap set_heap]. by rewrite lookup_insert_ne.
      + left. cbn [heap set_heap]. by rewrite lookup_insert_eq.
    - rewrite Hd. split_and!; try frame; auto. }
  destruct Hwb as (Hjb & Hmb & Hob & Hhb & Hn & Hp & Hu & Hlb).
  pose proof (note_phase_spec e job l (latched_data st0 data0) wb)
    as (Hj1 & Hm1 & Ha1 & Hr).
  destruct (note_phase e job l (latched_data st0 data0) wb) as [r1 w1].
  cbn [fst snd] in *.
  rewrite (phase_of_lastPhase _ _ _ Hp), phase_of_latched, Hn, Hu in Hr.
  assert (Ha : adds is_ping w w1).
  { destruct Ha1 as (evs & E & F). exists evs. split; [|done]. by rewrite E, Hob, Hoa. }
  assert (Hm : same_maps w w1) by eauto using same_maps_trans.
  destruct Hr as [(-> & Hh1) | ((msg & ->) & Hpc & Hh1)]; unfold ret; cbn [fst snd].
  - split_and!; try done; try congruence.
    + intros l' Hl'. rewrite Hh1, lookup_insert_ne by done. rewrite Hhb, Hha; done.
    + left. split; [done|]. by rewrite Hh1, lookup_insert_eq.
  - split_and!; try done; try congruence.
    + intros l' Hl'. rewrite Hh1. rewrite Hhb, Hha; done.
    + right. split_and!; eauto. rewrite Hh1.
      destruct Hlb as [Hlb | [Hlb Hsame]]; [by left|]. rewrite Hlb.
      destruct Hla as [Hla | Hla]; [|right; by rewrite Hla].
      left. rewrite Hla. f_equal.
      (* the object is unchanged: no latch write happened *)
      rewrite <- Hn, <- Hp, <- Hu.
      rewrite (deref_lookup l st0 wb) by (by rewrite Hlb).
      by destruct st0.
Qed.

(** *** Rows *)

Lemma has_message_eq m j : DB.has_message m j = true <-> message_id j = m.
Proof. unfold DB.has_message. apply String.eqb_eq. Qed.

Lemma getByMessageId_Some m rows j :
  DB.getByMessageId m rows = Some j -> j ∈ rows /\ message_id j = m.
Proof.
  unfold DB.getByMessageId. intros H. apply head_Some_elem_of in H.
  apply list_elem_of_filter in H as [H1 H2]. split; [done|]. by apply has_message_eq.
Qed.

Lemma getByMessageId_None m rows :
  DB.getByMessageId m rows = None <-> forall j, j ∈ rows -> message_id j <> m.
Proof.
  unfold DB.getByMessageId. rewrite head_None. split.
  - intros H j Hj Hm.
    assert (Hin : j ∈ filter (fun j => DB.has_message m j = true) rows)
      by (apply list_elem_of_filter; split; [by apply has_message_eq | done]).
    rewrite H in Hin. by apply not_elem_of_nil in Hin.
  - intros H. destruct (filter _ rows) as [|j rest] eqn:E; [done|].
    assert (Hin : j ∈ filter (fun j => DB.has_message m j = true) rows)
      by (rewrite E; left).
    apply list_elem_of_filter in Hin as [H1 H2].
    apply has_message_eq in H1. by destruct (H j H2).
Qed.

Lemma getByMessageId_deleted m rows :
  DB.getByMessageId m (filter (fun j => DB.has_message m j = false) rows) = None.
Proof.
  apply getByMessageId_None. intros j Hj Hm.
  apply list_elem_of_filter in Hj as [H1 _].
  apply has_message_eq in Hm. congruence.
Qed.

Lemma rows_rel_refl (Q : job -> job -> Prop) w w' :
  (forall j, Q j j) -> jobs w' = jobs w -> rows_rel Q w w'.
Proof. intros HQ E j' Hj'. rewrite E in Hj'. eauto. Qed.

Lemma rows_rel_trans (Q : job -> job -> Prop) a b c :
  (forall x y z, Q x y -> Q y z -> Q x z) ->
  rows_rel Q a b -> rows_rel Q b c -> rows_rel Q a c.
Proof.
  intros HQ H1 H2 j'' Hj''.
  destruct (H2 j'' Hj'') as (j' & Hj' & E2 & Q2).
  destruct (H1 j' Hj') as (j & Hj & E1 & Q1).
  exists j. split_and!; [done | congruence | eauto].
Qed.

Lemma rows_rel_map (Q : job -> job -> Prop) (f : job -> job) w w' :
  (forall j, rowid (f j) = rowid j /\ Q j (f j)) ->
  jobs w' = map f (jobs w) -> rows_rel Q w w'.
Proof.
  intros Hf E j' Hj'. rewrite E in Hj'.
  apply list_elem_of_fmap in Hj' as (j & -> & Hj).
  exists j. destruct (Hf j). eauto.
Qed.

Lemma rows_rel_filter (Q : job -> job -> Prop) (f : job -> bool) w w' :
  (forall j, Q j j) ->
  jobs w' = filter (fun j => f j = false) (jobs w) -> rows_rel Q w w'.
Proof.
  intros HQ E j' Hj'. rewrite E in Hj'.
  apply list_elem_of_filter in Hj' as [_ Hj']. eauto.
Qed.

(** *** [safeEditOrRepost] *)


Lemma safeEditOrRepost_in_place e j payload w :
  in_place e = true ->
  safeEditOrRepost e j payload w =
    (Ok (message_id j), set_out (fun l => l ++ [Edited (message_id j) payload]) w).
Proof.
  unfold in_place, safeEditOrRepost, emit, bind, modify, ret.
  destruct (message_found e); [|done]. by destruct (edit e).
Qed.

(** Whatever the answers, [safeEditOrRepost] leaves the heap, the
    intervals and the closed pages alone, adds at most a publication of
    [payload], and changes in the rows their message id alone. *)
Lemma safeEditOrRepost_spec e j payload w :
  let w' := snd (safeEditOrRepost e j payload w) in
  heap w' = heap w /\ intervals w' = intervals w /\ closed w' = closed w
  /\ next_handle w' = next_handle w /\ next_rowid w' = next_rowid w
  /\ adds (carries payload) w w'
  /\ (jobs w' = jobs w
      \/ jobs w' = map (fun r => if DB.has_message (message_id j) r
                                 then patch_message_id (default "" (sent_id e)) r
                                 else r) (jobs w)).
Proof.
  cbv zeta. unfold safeEditOrRepost, emit, DB.updateByMessageId, bind, modify, ret, throw.
  destruct (message_found e); [destruct (edit e)|]; cbn [fst snd];
    try (split_and!; try frame; by left).
  all: destruct (repost_channel e); cbn [negb fst snd];
    try (split_and!; try frame; by left).
  all: destruct (sent_id e); cbn [fst snd default];
    try (split_and!; try frame; by left).
  all: split_and!; try frame; by right.
Qed.

(** *** [publish], [teardown], [conclude] *)


Lemma rows_rel_sub (Q : job -> job -> Prop) a b c :
  (forall j, j ∈ jobs c -> j ∈ jobs b) -> rows_rel Q a b -> rows_rel Q a c.
Proof. intros H1 H2 j Hj. apply H2, H1, Hj. Qed.

Lemma rows_rel_same_jobs (Q : job -> job -> Prop) a a' b :
  jobs a' = jobs a -> rows_rel Q a' b -> rows_rel Q a b.
Proof. intros E H j Hj. destruct (H j Hj) as (j0 & H0 & ?). rewrite E in H0. eauto. Qed.

Lemma is_ping_carries p ev : is_ping ev -> carries p ev.
Proof. by destruct ev. Qed.

Lemma is_alert_carries p ev : is_alert ev -> carries p ev.
Proof. by destruct ev. Qed.

Lemma publish_spec cfg e j l data dn w :
  let w' := snd (publish cfg e j l data dn w) in
  heap w' = heap w /\ intervals w' = intervals w /\ closed w' = closed w
  /\ next_handle w' = next_handle w /\ next_rowid w' = next_rowid w
  /\ adds (fun ev => forall icon, guild e = Some icon ->
                     carries (payload_of cfg e j data dn icon) ev) w w'
  /\ rows_rel (published_row (message_id j) (lastPhase (deref l w))
                 (or_null (staticName (deref l w)))) w w'.
Proof.
  cbv zeta. unfold publish.
  assert (Hrefl : forall m p n x, published_row m p n x x) by (intros; by left).
  destruct (guild e) as [icon|];
    [|unfold throw; cbn [fst snd]; split_and!; try frame; by apply rows_rel_refl].
  destruct (bool_decide _); cbn [negb];
    [unfold ret; cbn [fst snd]; split_and!; try frame; by apply rows_rel_refl|].
  unfold bind, get.
  pose proof (safeEditOrRepost_spec e j (payload_of cfg e j data dn icon) w)
    as (Hh & Hi & Hc & Hn1 & Hn2 & Ha & Hj).
  destruct (safeEditOrRepost e j (payload_of cfg e j data dn icon) w) as [[m|msg] w1];
    cbn [fst snd] in *.
  - unfold DB.updateByMessageId, modify. cbn [fst snd].
    rewrite (deref_heap l w w1 Hh).
    split_and!; try done.
    + eapply adds_weaken; [|exact Ha]. intros ev Hev icon' [= <-]. exact Hev.
    + destruct Hj as [Hj | Hj].
      * eapply rows_rel_map; cycle 1; [cbn [jobs set_jobs]; by rewrite Hj|].
        intros r. cbn beta. destruct (DB.has_message (message_id j) r) eqn:E.
        -- split; [done|]. right. by apply has_message_eq in E.
        -- split; [done|]. by left.
      * eapply rows_rel_map; cycle 1;
          [cbn [jobs set_jobs]; rewrite Hj, map_map; reflexivity|].
        intros r. cbn beta.
        destruct (DB.has_message (message_id j) r) eqn:E.
        -- apply has_message_eq in E.
           destruct (DB.has_message (message_id j) (patch_message_id _ r)).
           ++ split; [done|]. by right.
           ++ split; [done|]. by left.
        -- rewrite E. split; [done|]. by left.
  - split_and!; try done.
    + eapply adds_weaken; [|exact Ha]. intros ev Hev icon' [= <-]. exact Hev.
    + destruct Hj as [Hj | Hj].
      * by apply rows_rel_refl.
      * eapply rows_rel_map; cycle 1; [exact Hj|].
        intros r. cbn beta. destruct (DB.has_message (message_id j) r); split; try done; by left.
Qed.

(** When the message is there and takes the edit. *)
Lemma publish_in_place cfg e j l data dn icon w :
  guild e = Some icon -> in_place e = true ->
  publish cfg e j l data dn w =
    (Ok tt,
     let payload := payload_of cfg e j data dn icon in
     if bool_decide (Some (hashPayload payload) = last_hash j) then w
     else set_jobs (map (fun r => if DB.has_message (message_id j) r
                                  then patch_published (hashPayload payload)
                                         (lastPhase (deref l w))
                                         (or_null (staticName (deref l w))) r
                                  else r))
            (set_out (fun o => o ++ [Edited (message_id j) payload]) w)).
Proof.
  intros Hg Hp. unfold publish. rewrite Hg. cbv zeta.
  destruct (bool_decide _); cbn [negb]; [done|].
  unfold bind. rewrite safeEditOrRepost_in_place by done. reflexivity.
Qed.


Lemma teardown_eq messageId rowKey page w :
  teardown messageId rowKey page w = (Ok tt, torn_down messageId rowKey page w).
Proof.
  unfold teardown, torn_down, clearInterval, close_page, DB.deleteByMessageId,
    bind, get, modify, ret.
  by destruct (timers w !! messageId).
Qed.

Lemma torn_down_gone messageId page w :
  gone messageId (torn_down messageId messageId page w)
  /\ page ∈ closed (torn_down messageId messageId page w)
  /\ (forall t, timers w !! messageId = Some t ->
        intervals (torn_down messageId messageId page w) !! t = None).
Proof.
  unfold gone, torn_down. cbn.
  split_and!; try apply lookup_delete_eq.
  - apply getByMessageId_deleted.
  - destruct (timers w !! messageId); cbn; set_solver.
  - intros t ->. cbn. apply lookup_delete_eq.
Qed.

Lemma conclude_spec e messageId j page l dn w :
  let w' := snd (conclude e messageId j page l dn w) in
  heap w' = heap w /\ adds is_ping w w'
  /\ (forall r, r ∈ jobs w' -> r ∈ jobs w).
Proof.
  cbv zeta. unfold conclude.
  destruct dn; [|unfold modify; cbn [fst snd]; split_and!; try frame; done].
  unfold bind, get.
  destruct (truthy (assigneeUserId (deref l w))).
  - destruct (final_channel e); cbn [negb].
    + unfold emit, modify. cbn [fst snd]. rewrite teardown_eq. cbn [fst snd].
      unfold torn_down. split_and!.
      * by destruct (timers _ !! messageId).
      * apply adds_trans with (set_out (fun o => o ++ [Pinged (channel_id j)
                 ("<@" +:+ show (assigneeUserId (deref l w)) +:+ ARRIVED)]) w);
          [by apply adds_one|].
        apply adds_same. by destruct (timers _ !! messageId).
      * intros r Hr. cbn [jobs set_states set_jobs] in Hr.
        apply list_elem_of_filter in Hr as [_ Hr].
        by destruct (timers _ !! messageId).
    + unfold throw. cbn [fst snd]. split_and!; try frame; done.
  - unfold ret. cbn [fst snd]. rewrite teardown_eq. cbn [fst snd].
    unfold torn_down. split_and!.
    + by destruct (timers _ !! messageId).
    + apply adds_same. by destruct (timers _ !! messageId).
    + intros r Hr. cbn [jobs set_states set_jobs] in Hr.
      apply list_elem_of_filter in Hr as [_ Hr].
      by destruct (timers _ !! messageId).
Qed.

(** When the channel of the final ping can be fetched. *)
Lemma conclude_eq e messageId j page l dn w :
  final_channel e = true ->
  conclude e messageId j page l dn w =
    (Ok tt,
     if dn
     then torn_down messageId (message_id j) page
            (if truthy (assigneeUserId (deref l w))
             then set_out (fun o => o ++ [Pinged (channel_id j)
                    ("<@" +:+ show (assigneeUserId (deref l w)) +:+ ARRIVED)]) w
             else w)
     else set_states (<[message_id j := l]>) w).
Proof.
  intros Hf. unfold conclude. destruct dn; [|done].
  unfold bind, get. rewrite Hf. cbn [negb].
  destruct (truthy _); unfold emit, modify, ret; cbn [fst snd]; by rewrite teardown_eq.
Qed.

(** *** [on_snapshot] and the other branches of a cycle *)

Lemma the_state_lookup messageId w st :
  heap w !! fst (the_state messageId w) = Some st -> snd (the_state messageId w) = st.
Proof.
  unfold the_state. destruct (states w !! messageId); cbn [fst snd].
  - apply deref_lookup.
  - by rewrite fresh_heap.
Qed.

Lemma on_snapshot_spec cfg e messageId j page data0 w :
  let l := fst (the_state messageId w) in
  let st0 := snd (the_state messageId w) in
  let p := phase_of data0 st0 in
  let n1 := latched st0 data0 in
  let data1 := latched_data st0 data0 in
  let dn := deliveredNow_of data1 p in
  let w' := snd (on_snapshot cfg e messageId j page data0 w) in
  (forall l', l' <> l -> heap w' !! l' = heap w !! l')
  /\ (heap w' !! l = Some (State p n1 (assigneeUserId st0))
      \/ heap w' !! l = Some (State (lastPhase st0) n1 (assigneeUserId st0))
      \/ (heap w' !! l = heap w !! l /\ n1 = staticName st0))
  /\ rows_rel (published_row (message_id j) p (or_null n1)) w w'
  /\ adds (fun ev => forall icon, guild e = Some icon ->
                     carries (payload_of cfg e j data1 dn icon) ev) w w'.
Proof.
  cbv zeta. unfold on_snapshot, bind.
  pose proof (observe_spec e messageId j data0 w) as (Hj1 & Hm1 & Ha1 & Hh1 & Hr).
  cbv zeta in Hj1, Hm1, Ha1, Hh1, Hr.
  set (l := fst (the_state messageId w)) in *.
  set (st0 := snd (the_state messageId w)) in *.
  destruct (observe e messageId j data0 w) as [r w1]. cbn [fst snd] in *.
  assert (Ha1' : adds (fun ev => forall icon, guild e = Some icon ->
             carries (payload_of cfg e j (latched_data st0 data0)
                        (deliveredNow_of (latched_data st0 data0) (phase_of data0 st0)) icon) ev)
             w w1).
  { eapply adds_weaken; [|exact Ha1]. intros ev Hev icon _. by apply is_ping_carries. }
  destruct Hr as [(-> & Hl) | ((msg & ->) & _ & Hl)]; cbn [fst snd].
  - pose proof (publish_spec cfg e j l (latched_data st0 data0)
                  (deliveredNow_of (latched_data st0 data0) (phase_of data0 st0)) w1)
      as (Hh2 & _ & _ & _ & _ & Ha2 & Hrows2).
    rewrite (deref_lookup _ _ _ Hl) in Hrows2. cbn [lastPhase staticName] in Hrows2.
    destruct (publish cfg e j l _ _ w1) as [[[]|msg] w2]; cbn [fst snd] in *.
    + pose proof (conclude_spec e messageId j page l
                    (deliveredNow_of (latched_data st0 data0) (phase_of data0 st0)) w2)
        as (Hh3 & Ha3 & Hsub).
      cbv zeta in Hh3, Ha3, Hsub.
      set (w3 := snd (conclude e messageId j page l _ w2)) in *.
      split_and!.
      * intros l' Hl'. rewrite Hh3, Hh2. by apply Hh1.
      * left. by rewrite Hh3, Hh2.
      * eapply rows_rel_sub; [exact Hsub|].
        eapply rows_rel_same_jobs; [exact Hj1 | exact Hrows2].
      * eapply adds_trans; [exact Ha1'|]. eapply adds_trans; [exact Ha2|].
        eapply adds_weaken; [|exact Ha3]. intros ev Hev icon _. by apply is_ping_carries.
    + split_and!.
      * intros l' Hl'. rewrite Hh2. by apply Hh1.
      * left. by rewrite Hh2.
      * eapply rows_rel_same_jobs; [exact Hj1 | exact Hrows2].
      * eapply adds_trans; [exact Ha1' | exact Ha2].
  - split_and!; [done | by right | | done].
    apply rows_rel_refl; [intros; by left | done].
Qed.

(** A scrape fault: the requester is told unless the fault is a detached
    frame or the last report is less than five minutes old, and the time
    of the report is stored. *)
Lemma on_scrape_error_eq e j m w :
  on_scrape_error e j m w =
    (Ok tt,
     if isDetachErr m || too_soon e j then w
     else set_jobs (map (fun r => if DB.has_message (message_id j) r
                                  then patch_last_error_at (Some (clock_stamp e)) r
                                  else r))
            (if truthy (requester_user_id j)
             then set_out (fun o => o ++ [DirectMessage (default "" (requester_user_id j))
                                                        (FAULT_DM m)]) w
             else w)).
Proof.
  unfold on_scrape_error, dmRequester, DB.updateByMessageId,
    emit, bind, modify, ret.
  destruct (isDetachErr m); [done|]. cbn [orb].
  destruct (too_soon e j); cbn [negb]; [done|].
  by destruct (truthy (requester_user_id j)).
Qed.

(** The outer [catch] adds an alert and changes nothing else. *)
Lemma report_spec (m : M unit) w :
  let w1 := snd (m w) in
  let w' := snd (try_catch m report w) in
  heap w' = heap w1 /\ jobs w' = jobs w1 /\ same_maps w1 w'
  /\ adds is_alert w1 w'.
Proof.
  cbv zeta. unfold try_catch, report, emit, modify.
  destruct (m w) as [[[]|msg] w1]; cbn [fst snd]; split_and!; try frame.
Qed.

(** The login wall leaves the heap alone and changes in the rows their
    message id alone, before it deletes them. *)
Lemma on_login_wall_spec e messageId j page w :
  let w' := snd (on_login_wall e messageId j page w) in
  heap w' = heap w
  /\ rows_rel (fun r r' => last_phase r' = last_phase r /\ static_name r' = static_name r) w w'.
Proof.
  cbv zeta. unfold on_login_wall, bind.
  pose proof (safeEditOrRepost_spec e j (login_payload (url j)) w)
    as (Hh & _ & _ & _ & _ & _ & Hj).
  destruct (safeEditOrRepost e j (login_payload (url j)) w) as [[m|msg] w1];
    cbn [fst snd] in *.
  - assert (Hrows : rows_rel (fun r r' => last_phase r' = last_phase r
                                /\ static_name r' = static_name r) w w1).
    { destruct Hj as [Hj | Hj]; [by apply rows_rel_refl|].
      eapply rows_rel_map; cycle 1; [exact Hj|].
      intros r. cbn beta. by destruct (DB.has_message (message_id j) r). }
    unfold dmRequester, emit, modify, ret.
    destruct (truthy (requester_user_id j)); cbn [fst snd]; rewrite teardown_eq;
      cbn [fst snd]; unfold torn_down; split.
    + by destruct (timers _ !! messageId).
    + eapply rows_rel_sub; [|exact Hrows]. intros r Hr.
      cbn [jobs set_states set_jobs] in Hr. apply list_elem_of_filter in Hr as [_ Hr].
      by destruct (timers _ !! messageId).
    + by destruct (timers _ !! messageId).
    + eapply rows_rel_sub; [|exact Hrows]. intros r Hr.
      cbn [jobs set_states set_jobs] in Hr. apply list_elem_of_filter in Hr as [_ Hr].
      by destruct (timers _ !! messageId).
  - split; [done|].
    destruct Hj as [Hj | Hj]; [by apply rows_rel_refl|].
    eapply rows_rel_map; cycle 1; [exact Hj|].
    intros r. cbn beta. by destruct (DB.has_message (message_id j) r).
Qed.

(** The five ways a cycle can go. *)
Lemma cycle_cases cfg e messageId w :
  let w' := cycle cfg e messageId w in
  (DB.getByMessageId messageId (jobs w) = None
   /\ w' = set_timers (delete messageId)
              (match timers w !! messageId with
               | Some t => set_intervals (delete t) w
               | None => w
               end))
  \/ (exists j, DB.getByMessageId messageId (jobs w) = Some j
       /\ ((pages w !! messageId = None /\ w' = w)
           \/ exists page, pages w !! messageId = Some page
              /\ ((exists m, fst (scrapeOrderPage (load e)) = Throw m
                    /\ w' = snd (on_scrape_error e j m w))
                  \/ (fst (scrapeOrderPage (load e)) = Ok RequiresLogin
                      /\ w' = snd (try_catch (on_login_wall e messageId j page) report w))
                  \/ (exists data, fst (scrapeOrderPage (load e)) = Ok (Data data)
                      /\ w' = snd (try_catch (on_snapshot cfg e messageId j page data)
                                             report w))))).
Proof.
  cbv zeta. unfold cycle, runOnceAndUpdate, bind, get.
  destruct (DB.getByMessageId messageId (jobs w)) as [j|].
  - right. exists j. split; [done|].
    destruct (pages w !! messageId) as [page|]; [|left; done].
    right. exists page. split; [done|].
    destruct (fst (scrapeOrderPage (load e))) as [[|data]|m].
    + right. left. done.
    + right. right. eauto.
    + left. exists m. split; [done|].
      unfold try_catch. by rewrite on_scrape_error_eq.
  - left. split; [done|]. unfold clearInterval, modify, ret.
    by destruct (timers w !! messageId).
Qed.

Lemma heap_rel_same (P : state -> state -> Prop) w w' :
  (forall st, P st st) -> heap w' = heap w -> heap_rel P w w'.
Proof. intros HP E l st Hl. rewrite E. eauto. Qed.

Lemma latched_truthy st data :
  truthy (staticName st) = true -> latched st data = staticName st.
Proof. unfold latched. by intros ->. Qed.

Lemma latched_first st data :
  truthy (staticName st) = false -> truthy (name data) = true ->
  latched st data = name data.
Proof. unfold latched. by intros -> ->. Qed.

(** A cycle changes the state objects within [P] when the two writes of
    the snapshot branch do. *)
Lemma cycle_heap_rel (P : state -> state -> Prop) cfg e messageId w :
  (forall st, P st st) ->
  (forall st data, P st (State (lastPhase st) (latched st data) (assigneeUserId st))) ->
  (forall data st, fst (scrapeOrderPage (load e)) = Ok (Data data) ->
     P st (State (phase_of data st) (latched st data) (assigneeUserId st))) ->
  heap_rel P w (cycle cfg e messageId w).
Proof.
  intros Hrefl Hname Hphase.
  destruct (cycle_cases cfg e messageId w)
    as [[_ ->] | (j & Hj & [[_ ->] | (page & Hp & [(m & _ & ->) | [[_ ->] | (data & Hd & ->)]])])].
  - apply heap_rel_same; [done|]. by destruct (timers w !! messageId).
  - by apply heap_rel_same.
  - apply heap_rel_same; [done|]. rewrite on_scrape_error_eq. cbn [snd].
    destruct (_ || _); [done|]. by destruct (truthy _).
  - apply heap_rel_same; [done|].
    pose proof (report_spec (on_login_wall e messageId j page) w) as (-> & _).
    apply on_login_wall_spec.
  - pose proof (report_spec (on_snapshot cfg e messageId j page data) w) as (Hh & _).
    pose proof (on_snapshot_spec cfg e messageId j page data w) as (Hother & Hl & _).
    cbv zeta in Hh, Hother, Hl.
    intros l st Hst. rewrite Hh.
    destruct (decide (l = fst (the_state messageId w))) as [-> | Hne].
    + rewrite (the_state_lookup _ _ _ Hst) in Hl.
      destruct Hl as [-> | [-> | [-> _]]]; eauto.
    + rewrite Hother by done. eauto.
Qed.

Lemma phase_of_None data st :
  classifyPhase (or_else (statusLine data) (Some (statusText data))) = None ->
  phase_of data st = lastPhase st.
Proof. unfold phase_of. by intros ->. Qed.

Lemma phase_of_Some data st :
  is_Some (lastPhase st) -> is_Some (phase_of data st).
Proof. unfold phase_of. destruct (classifyPhase _); eauto. Qed.

(** A cycle for [messageId] writes to the rows, as their phase, the phase
    it computed, and to rows of that message alone. *)
Lemma cycle_rows cfg e messageId w :
  rows_rel (fun r r' =>
              last_phase r' = last_phase r
              \/ (message_id r = messageId
                  /\ exists data, fst (scrapeOrderPage (load e)) = Ok (Data data)
                     /\ last_phase r' = phase_of data (snd (the_state messageId w))))
    w (cycle cfg e messageId w).
Proof.
  destruct (cycle_cases cfg e messageId w)
    as [[_ ->] | (j & Hj & [[_ ->] | (page & Hp & [(m & _ & ->) | [[_ ->] | (data & Hd & ->)]])])].
  - apply rows_rel_refl; [by left|]. by destruct (timers w !! messageId).
  - apply rows_rel_refl; [by left | done].
  - rewrite on_scrape_error_eq. cbn [snd].
    destruct (_ || _); [apply rows_rel_refl; [by left | done]|].
    eapply rows_rel_map; cycle 1.
    { cbn [jobs set_jobs]. destruct (truthy _); reflexivity. }
    intros r. cbn beta. destruct (DB.has_message _ r); split; try done; by left.
  - pose proof (report_spec (on_login_wall e messageId j page) w) as (_ & Hjobs & _).
    eapply rows_rel_sub; [intros r Hr; rewrite Hjobs in Hr; exact Hr|].
    intros r' Hr'.
    destruct (on_login_wall_spec e messageId j page w) as [_ Hrows].
    destruct (Hrows r' Hr') as (r & Hr & Hid & Hph & _). exists r. eauto.
  - pose proof (report_spec (on_snapshot cfg e messageId j page data) w) as (_ & Hjobs & _).
    eapply rows_rel_sub; [intros r Hr; rewrite Hjobs in Hr; exact Hr|].
    intros r' Hr'.
    destruct (on_snapshot_spec cfg e messageId j page data w) as (_ & _ & Hrows & _).
    destruct (Hrows r' Hr') as (r & Hr & Hid & [[Hph _] | (Hm & Hph & _)]).
    + exists r. eauto.
    + exists r. split_and!; [done | done |]. right.
      apply getByMessageId_Some in Hj as [_ Hj]. split; [congruence|]. eauto.
Qed.

Lemma scrape_loaded (load : nat -> loading) html :
  load 0%nat = Loaded html ->
  scrapeOrderPage load = (Ok (Data (scrapeFromHTML html)), 1%nat).
Proof. unfold scrapeOrderPage. cbn [scrape_loop]. by intros ->. Qed.

Lemma the_state_known messageId w l st :
  states w !! messageId = Some l -> heap w !! l = Some st ->
  the_state messageId w = (l, st).
Proof. unfold the_state. intros -> H. by rewrite (deref_lookup _ _ _ H). Qed.

(** *** The name latch *)

(** C2. A name that a state object holds is never overwritten: whatever a
    cycle of whatever job meets, the object is still there afterwards with
    the same name. A cycle of the job whose snapshot has no name takes the
    latched name instead: every message the cycle publishes is built from
    the snapshot with that name in it, and the embed shows it in its name
    field. The first name a snapshot yields is what gets latched. A
    snapshot that has a name of its own is published as it is. *)
Theorem name_latch cfg e messageId w :
  heap_rel name_kept w (cycle cfg e messageId w)
  /\ (forall j page html l st,
        DB.getByMessageId messageId (jobs w) = Some j ->
        pages w !! messageId = Some page ->
        load e 0%nat = Loaded html ->
        states w !! messageId = Some l ->
        heap w !! l = Some st ->
        (truthy (staticName st) = true ->
         truthy (name (scrapeFromHTML html)) = false ->
         let data := with_name (staticName st) (scrapeFromHTML html) in
         let dn := deliveredNow_of data (phase_of data st) in
         adds (fun ev => forall icon, guild e = Some icon ->
                         carries (payload_of cfg e j data dn icon) ev)
              w (cycle cfg e messageId w)
         /\ (forall v, sanitizeValue (staticName st) = Some v ->
               In (field "👤 Name" v true) (active_fields cfg data)))
        /\ (truthy (staticName st) = false ->
            truthy (name (scrapeFromHTML html)) = true ->
            exists st', heap (cycle cfg e messageId w) !! l = Some st'
                        /\ staticName st' = name (scrapeFromHTML html))
        /\ (truthy (name (scrapeFromHTML html)) = true ->
            let data := scrapeFromHTML html in
            let dn := deliveredNow_of data (phase_of data st) in
            adds (fun ev => forall icon, guild e = Some icon ->
                            carries (payload_of cfg e j data dn icon) ev)
                 w (cycle cfg e messageId w))).
Proof.
  split.
  { apply cycle_heap_rel.
    - by intros st.
    - intros st data H. cbn [staticName]. by apply latched_truthy.
    - intros data st _ H. cbn [staticName]. by apply latched_truthy. }
  intros j page html l st Hj Hp Hload Hs Hh.
  pose proof (scrape_loaded _ _ Hload) as Hscr.
  assert (Hw : cycle cfg e messageId w
               = snd (try_catch (on_snapshot cfg e messageId j page (scrapeFromHTML html))
                                report w)).
  { unfold cycle, runOnceAndUpdate, bind, get. by rewrite Hj, Hp, Hscr. }
  pose proof (report_spec (on_snapshot cfg e messageId j page (scrapeFromHTML html)) w)
    as (Hheap & _ & _ & Hadds).
  pose proof (on_snapshot_spec cfg e messageId j page (scrapeFromHTML html) w)
    as (_ & Hl & _ & Ha).
  cbv zeta in Hheap, Hadds, Hl, Ha. rewrite <- Hw in Hheap, Hadds.
  rewrite (the_state_known _ _ _ _ Hs Hh) in Hl, Ha. cbn [fst snd] in Hl, Ha.
  split.
  - intros Ht Hn. cbv zeta.
    assert (Hld : latched_data st (scrapeFromHTML html)
                  = with_name (staticName st) (scrapeFromHTML html)).
    { unfold latched_data. by rewrite (latched_truthy _ _ Ht), Ht, Hn. }
    rewrite Hld in Ha. split.
    + eapply adds_trans; [exact Ha|].
      eapply adds_weaken; [|exact Hadds]. intros ev Hev icon _.
      by apply is_alert_carries.
    + intros v Hv. unfold active_fields. cbn [name with_name]. rewrite Hv.
      apply in_or_app. right. apply in_or_app. right. apply in_or_app. left.
      left. reflexivity.
  - split.
    { intros Ht Hn. rewrite Hheap.
      rewrite (latched_first _ _ Ht Hn) in Hl.
      destruct Hl as [-> | [-> | [_ Habs]]]; eauto.
      rewrite Habs in Hn. congruence. }
    intros Hn. cbv zeta.
    assert (Hld : latched_data st (scrapeFromHTML html) = scrapeFromHTML html).
    { unfold latched_data. rewrite Hn. by rewrite andb_false_r. }
    rewrite Hld in Ha.
    eapply adds_trans; [exact Ha|].
    eapply adds_weaken; [|exact Hadds]. intros ev Hev icon _.
    by apply is_alert_carries.
Qed.

(** In [started] the job holds the name John and the page of the next
    cycle has none; in [registered] no name is held yet. *)
Lemma name_latch_witness :
  (exists st', heap (cycle default_config (calm page_almost 62000) "m1" started) !! 0%nat
               = Some st'
               /\ staticName st' = Some "John")
  /\ In (field "👤 Name" "John" true)
        (active_fields default_config (with_name (Some "John") (scrapeFromHTML page_almost)))
  /\ (exists st', heap (cycle default_config (calm page_preparing 2000) "m1" registered) !! 0%nat
                  = Some st'
                  /\ staticName st' = Some "John").
Proof.
  destruct (name_latch default_config (calm page_almost 62000) "m1" started) as [Hkeep Hrep].
  destruct (name_latch default_config (calm page_preparing 2000) "m1" registered) as [_ Hfirst].
  split; [|split].
  - destruct (Hkeep 0%nat (State (Some PREPARING) (Some "John") (Some "u7"))
                ltac:(vm_compute; reflexivity)) as (st' & H1 & H2).
    exists st'. split; [exact H1|]. apply H2. vm_compute. reflexivity.
  - edestruct (Hrep) as (H & _ & _);
      [vm_compute; reflexivity | vm_compute; reflexivity | reflexivity
      | vm_compute; reflexivity | vm_compute; reflexivity |].
    destruct H as [_ H]; [vm_compute; reflexivity | vm_compute; reflexivity |].
    apply (H "John"). vm_compute. reflexivity.
  - edestruct (Hfirst) as (_ & H & _);
      [vm_compute; reflexivity | vm_compute; reflexivity | reflexivity
      | vm_compute; reflexivity | vm_compute; reflexivity |].
    destruct H as (st' & H1 & H2); [vm_compute; reflexivity | vm_compute; reflexivity |].
    exists st'. split; [exact H1|]. rewrite H2. vm_compute. reflexivity.
Defined.

(** *** The phase that is kept *)

(** C8. A phase that a state object holds is never lost: after a cycle of
    whatever job the object is there with a phase. In a cycle whose
    headline the classifier does not know, no state object changes its
    phase, and what the cycle writes to the rows as phase, if it writes,
    is the phase the job had. And when the rows of the job have no phase
    that its state object lacks, no row that had a phase is left without
    one. *)
Theorem phase_retained cfg e messageId w :
  let w' := cycle cfg e messageId w in
  let st0 := snd (the_state messageId w) in
  heap_rel phase_kept w w'
  /\ (forall data,
        fst (scrapeOrderPage (load e)) = Ok (Data data) ->
        classifyPhase (or_else (statusLine data) (Some (statusText data))) = None ->
        heap_rel (fun st st' => lastPhase st' = lastPhase st) w w'
        /\ rows_rel (fun r r' => last_phase r' = last_phase r
                                 \/ (message_id r = messageId
                                     /\ last_phase r' = lastPhase st0)) w w')
  /\ ((forall r, r ∈ jobs w -> message_id r = messageId ->
         is_Some (last_phase r) -> is_Some (lastPhase st0)) ->
      rows_rel (fun r r' => is_Some (last_phase r) -> is_Some (last_phase r')) w w').
Proof.
  cbv zeta. split; [|split].
  - apply cycle_heap_rel.
    + intros st H. exact H.
    + intros st data H. exact H.
    + intros data st _ H. cbn [lastPhase]. by apply phase_of_Some.
  - intros data Hd Hc. split.
    + apply cycle_heap_rel.
      * done.
      * done.
      * intros data' st Hd'. rewrite Hd in Hd'. injection Hd' as <-.
        cbn [lastPhase]. by apply phase_of_None.
    + intros r' Hr'. destruct (cycle_rows cfg e messageId w r' Hr')
        as (r & Hr & Hid & [Hph | (Hm & data' & Hd' & Hph)]).
      * exists r. eauto.
      * exists r. split_and!; [done | done |]. right. split; [done|].
        rewrite Hd in Hd'. injection Hd' as <-. by rewrite Hph, phase_of_None.
  - intros Hco r' Hr'. destruct (cycle_rows cfg e messageId w r' Hr')
      as (r & Hr & Hid & [Hph | (Hm & data' & Hd' & Hph)]).
    + exists r. split_and!; [done | done |]. by rewrite Hph.
    + exists r. split_and!; [done | done |]. intros Hs. rewrite Hph.
      apply phase_of_Some. eauto.
Qed.

(** The next page of [started] has the headline "Hello". *)
Lemma phase_retained_witness :
  rows_rel (fun r r' => last_phase r' = last_phase r
                        \/ (message_id r = "m1"
                            /\ last_phase r' = lastPhase (snd (the_state "m1" started))))
    started (cycle default_config (calm page_unknown 62000) "m1" started)
  /\ rows_rel (fun r r' => is_Some (last_phase r) -> is_Some (last_phase r'))
       started (cycle default_config (calm page_unknown 62000) "m1" started)
  /\ lastPhase (snd (the_state "m1" started)) = Some PREPARING.
Proof.
  destruct (phase_retained default_config (calm page_unknown 62000) "m1" started)
    as (_ & Hnone & Hrows).
  destruct (Hnone (scrapeFromHTML page_unknown)) as [_ H];
    [vm_compute; reflexivity | vm_compute; reflexivity |].
  split; [exact H|]. split.
  - apply Hrows. intros r Hr _ _. vm_compute. eauto.
  - vm_compute. reflexivity.
Defined.

(** *** Scrape faults *)

Lemma getByMessageId_patched m (f : job -> job) rows :
  (forall r, message_id (f r) = message_id r) ->
  DB.getByMessageId m (map (fun r => if DB.has_message m r then f r else r) rows)
  = f <$> DB.getByMessageId m rows.
Proof.
  intros Hf. unfold DB.getByMessageId. induction rows as [|r rows IH]; [done|].
  cbn [map]. rewrite !filter_cons.
  destruct (DB.has_message m r) eqn:E.
  - assert (E' : DB.has_message m (f r) = true).
    { apply has_message_eq. rewrite Hf. by apply has_message_eq. }
    rewrite decide_True by done. rewrite decide_True by done. done.
  - rewrite decide_False by congruence. rewrite decide_False by congruence. exact IH.
Qed.

Lemma scrape_retry (load : nat -> loading) msg :
  load 0%nat = Failed msg ->
  snd (scrapeOrderPage load) = (if isDetachErr msg then 2 else 1)%nat
  /\ (isDetachErr msg = false -> fst (scrapeOrderPage load) = Throw msg).
Proof.
  intros H. unfold scrapeOrderPage. cbn [scrape_loop]. rewrite H.
  destruct (isDetachErr msg); cbn [andb Nat.eqb fst snd]; [|done].
  split; [|done].
  destruct (load 1%nat); [done | done |].
  by rewrite andb_false_r.
Qed.

(** C5, counterexample. A network fault is not a detached frame: the page
    is loaded once and the fault goes up. And the job [started] is told of
    the fault at second 62 and again of the fault at second 182, two
    minutes later, because the cycle in between, which published the
    changed page, cleared the stored time of the last report. *)
Lemma fault_retry_counterexample :
  ~ (forall (load : nat -> loading) msg,
       load 0%nat = Failed msg -> snd (scrapeOrderPage load) = 2%nat)
  /\ filter (fun ev => is_dm ev = true) (added started fault_1)
     = [DirectMessage "u1" (FAULT_DM NET_FAULT)]
  /\ filter (fun ev => is_dm ev = true) (added recovered fault_2)
     = [DirectMessage "u1" (FAULT_DM NET_FAULT)].
Proof.
  split_and!; [|vm_compute; reflexivity|vm_compute; reflexivity].
  intros H. specialize (H (fun _ => Failed NET_FAULT) NET_FAULT eq_refl).
  vm_compute in H. discriminate.
Qed.

(** C5, amended. A load that fails with a detached frame is tried once
    more; any other fault, a network fault too, goes up after the one
    load. A cycle whose scrape fails never ends the job: the maps, the
    heap and the rows with their message ids stay. A detached frame that
    persists is dropped in silence; for another fault the requester is
    told, and the time stored in the row, unless the row holds a time less
    than five minutes old. So a further fault within five minutes of a
    report changes nothing, as long as no publication has cleared the
    stored time in between. *)
Theorem scrape_fault_cycle cfg e messageId w j page m :
  DB.getByMessageId messageId (jobs w) = Some j ->
  pages w !! messageId = Some page ->
  fst (scrapeOrderPage (load e)) = Throw m ->
  let w' := cycle cfg e messageId w in
  (forall msg, load e 0%nat = Failed msg ->
     snd (scrapeOrderPage (load e)) = (if isDetachErr msg then 2 else 1)%nat)
  /\ same_maps w w' /\ heap w' = heap w
  /\ map rowid (jobs w') = map rowid (jobs w)
  /\ map message_id (jobs w') = map message_id (jobs w)
  /\ (if isDetachErr m || too_soon e j then w' = w
      else out w' = out w ++ (if truthy (requester_user_id j)
                              then [DirectMessage (default "" (requester_user_id j))
                                                  (FAULT_DM m)]
                              else [])
           /\ last_error_at <$> DB.getByMessageId messageId (jobs w')
              = Some (Some (clock_stamp e)))
  /\ (forall e2 m2,
        isDetachErr m || too_soon e j = false ->
        fst (scrapeOrderPage (load e2)) = Throw m2 ->
        (clock_check e2 - clock_stamp e < 5 * 60000)%Z ->
        cycle cfg e2 messageId w' = w').
Proof.
  intros Hj Hp Hs. cbv zeta.
  assert (Hm : message_id j = messageId) by exact (proj2 (getByMessageId_Some _ _ _ Hj)).
  assert (Hw : forall e' m' w0 j0,
             DB.getByMessageId messageId (jobs w0) = Some j0 ->
             pages w0 !! messageId = Some page ->
             fst (scrapeOrderPage (load e')) = Throw m' ->
             cycle cfg e' messageId w0 = snd (on_scrape_error e' j0 m' w0)).
  { intros e' m' w0 j0 Hj0 Hp0 Hs0.
    unfold cycle, runOnceAndUpdate, bind, get. rewrite Hj0, Hp0, Hs0.
    unfold try_catch. by rewrite on_scrape_error_eq. }
  rewrite (Hw e m w j Hj Hp Hs), on_scrape_error_eq. cbn [snd].
  split; [intros msg Hl; by apply scrape_retry|].
  destruct (isDetachErr m || too_soon e j) eqn:Hq.
  { split_and!; try frame. intros e2 m2 Habs. congruence. }
  set (w' := set_jobs _ _).
  assert (Hj' : DB.getByMessageId messageId (jobs w')
                = Some (patch_last_error_at (Some (clock_stamp e)) j)).
  { subst w'. cbn [jobs set_jobs]. rewrite Hm.
    rewrite getByMessageId_patched by done.
    destruct (truthy _); cbn [jobs set_out]; by rewrite Hj. }
  split_and!.
  - subst w'. destruct (truthy _); frame.
  - subst w'. by destruct (truthy _).
  - subst w'. cbn [jobs set_jobs]. rewrite map_map.
    replace (jobs (if truthy (requester_user_id j) then _ else w)) with (jobs w)
      by (by destruct (truthy _)).
    apply map_ext. intros r. by destruct (DB.has_message _ r).
  - subst w'. cbn [jobs set_jobs]. rewrite map_map.
    replace (jobs (if truthy (requester_user_id j) then _ else w)) with (jobs w)
      by (by destruct (truthy _)).
    apply map_ext. intros r. by destruct (DB.has_message _ r).
  - subst w'. destruct (truthy _); [done|]. cbn [out set_jobs]. by rewrite app_nil_r.
  - by rewrite Hj'.
  - intros e2 m2 _ Hs2 Hclock.
    assert (Hp' : pages w' !! messageId = Some page)
      by (subst w'; by destruct (truthy _)).
    rewrite (Hw e2 m2 w' _ Hj' Hp' Hs2), on_scrape_error_eq. cbn [snd].
    replace (too_soon e2 (patch_last_error_at (Some (clock_stamp e)) j)) with true.
    + by rewrite orb_true_r.
    + unfold too_soon. cbn [last_error_at patch_last_error_at].
      symmetry. by apply Z.ltb_lt.
Qed.

(** The job [started] meets a network fault at second 62 and another one
    at second 122. *)
Lemma scrape_fault_cycle_witness :
  snd (scrapeOrderPage (load (faulty NET_FAULT 62000))) = 1%nat
  /\ same_maps started (cycle default_config (faulty NET_FAULT 62000) "m1" started)
  /\ cycle default_config (faulty NET_FAULT 122000) "m1"
        (cycle default_config (faulty NET_FAULT 62000) "m1" started)
     = cycle default_config (faulty NET_FAULT 62000) "m1" started.
Proof.
  edestruct (scrape_fault_cycle default_config (faulty NET_FAULT 62000) "m1" started)
    as (Hretry & Hmaps & _ & _ & _ & _ & Hnext);
    [vm_compute; reflexivity | vm_compute; reflexivity | vm_compute; reflexivity |].
  split_and!.
  - rewrite (Hretry NET_FAULT eq_refl). vm_compute. reflexivity.
  - exact Hmaps.
  - apply (Hnext (faulty NET_FAULT 122000) NET_FAULT).
    + vm_compute. reflexivity.
    + vm_compute. reflexivity.
    + vm_compute. reflexivity.
Defined.

(** *** The end of a job *)

Lemma getByMessageId_is_Some_patched m (f : job -> job) rows :
  (forall r, message_id (f r) = message_id r) ->
  is_Some (DB.getByMessageId m rows) ->
  is_Some (DB.getByMessageId m (map (fun r => if DB.has_message m r then f r else r) rows)).
Proof. intros Hf [j Hj]. rewrite getByMessageId_patched, Hj by done. eauto. Qed.

Lemma out_torn_down messageId rowKey page w :
  out (torn_down messageId rowKey page w) = out w.
Proof. unfold torn_down. by destruct (timers w !! messageId). Qed.

Lemma deliveredNow_latched st0 data0 p :
  deliveredNow_of (latched_data st0 data0) p = deliveredNow_of data0 p.
Proof. unfold deliveredNow_of. by rewrite delivered_latched. Qed.

(** A cycle that scrapes a snapshot while every call to the chat platform
    answers and the message takes the edit: what is left of the job. *)
Lemma snapshot_cycle_in_place cfg e messageId w j page html icon l st :
  DB.getByMessageId messageId (jobs w) = Some j ->
  pages w !! messageId = Some page ->
  load e 0%nat = Loaded html ->
  states w !! messageId = Some l ->
  heap w !! l = Some st ->
  guild e = Some icon -> ping_channel e = true -> final_channel e = true ->
  in_place e = true ->
  let data := scrapeFromHTML html in
  let w' := cycle cfg e messageId w in
  if deliveredNow_of data (phase_of data st)
  then gone messageId w' /\ page ∈ closed w'
       /\ (forall t, timers w !! messageId = Some t -> intervals w' !! t = None)
       /\ (truthy (assigneeUserId st) = true ->
           last (out w') = Some (Pinged (channel_id j)
                                   ("<@" +:+ show (assigneeUserId st) +:+ ARRIVED)))
  else is_Some (DB.getByMessageId messageId (jobs w'))
       /\ timers w' = timers w /\ intervals w' = intervals w
       /\ pages w' = pages w /\ states w' !! messageId = Some l
       /\ closed w' = closed w.
Proof.
  intros Hj Hp Hload Hs Hh Hg Hping Hfinal Hplace. cbv zeta.
  assert (Hm : message_id j = messageId) by exact (proj2 (getByMessageId_Some _ _ _ Hj)).
  pose proof (scrape_loaded _ _ Hload) as Hscr.
  unfold cycle, runOnceAndUpdate, bind, get. rewrite Hj, Hp, Hscr. cbn [fst].
  unfold try_catch, on_snapshot, bind.
  pose proof (observe_spec e messageId j (scrapeFromHTML html) w)
    as (Hj1 & Hm1 & Ha1 & _ & Hr).
  cbv zeta in Hj1, Hm1, Ha1, Hr.
  rewrite (the_state_known _ _ _ _ Hs Hh) in Hr. cbn [fst snd] in Hr.
  destruct (observe e messageId j (scrapeFromHTML html) w) as [r w1]. cbn [fst snd] in *.
  destruct Hr as [(-> & Hl) | (_ & Habs & _)]; [|congruence].
  cbv beta iota. rewrite deliveredNow_latched.
  set (dn := deliveredNow_of (scrapeFromHTML html) (phase_of (scrapeFromHTML html) st)).
  rewrite (publish_in_place _ _ _ _ _ _ icon) by done. cbv zeta.
  set (w2 := if bool_decide _ then w1 else _).
  assert (Hw2 : same_maps w1 w2 /\ heap w2 = heap w1
                /\ is_Some (DB.getByMessageId messageId (jobs w2))).
  { subst w2. destruct (bool_decide _).
    - split_and!; try frame. rewrite Hj1, Hj. eauto.
    - split_and!; try frame. cbn [jobs set_jobs set_out]. rewrite Hm.
      apply getByMessageId_is_Some_patched; [done|]. rewrite Hj1, Hj. eauto. }
  destruct Hw2 as (Hm2 & Hh2 & Hj2).
  rewrite conclude_eq by done. cbn [snd].
  assert (Hd : deref l w2 = State (phase_of (scrapeFromHTML html) st)
                             (latched st (scrapeFromHTML html)) (assigneeUserId st)).
  { apply deref_lookup. by rewrite Hh2. }
  rewrite Hd. cbn [assigneeUserId].
  destruct Hm1 as (Ht1 & Hp1 & Hs1 & Hi1 & Hc1 & _).
  destruct Hm2 as (Ht2 & Hp2 & Hs2 & Hi2 & Hc2 & _).
  destruct dn.
  - rewrite Hm.
    set (w2' := if truthy (assigneeUserId st) then _ else w2).
    assert (Ht2' : timers w2' = timers w) by (subst w2'; destruct (truthy _); cbn; congruence).
    destruct (torn_down_gone messageId page w2') as (Hgone & Hclosed & Hint).
    split_and!; [exact Hgone | exact Hclosed | |].
    + intros t Ht. apply Hint. by rewrite Ht2'.
    + intros Hu. rewrite out_torn_down. subst w2'. rewrite Hu.
      cbn [out set_out]. apply last_snoc.
  - rewrite Hm. cbn [jobs timers intervals pages states closed set_states].
    split_and!; try congruence. apply lookup_insert_eq.
Qed.



(** *** Start, and what belongs to a job *)

Lemma runOnceAndUpdate_ok cfg e messageId w :
  fst (runOnceAndUpdate cfg e messageId w) = Ok tt.
Proof.
  unfold runOnceAndUpdate, bind, get.
  destruct (DB.getByMessageId messageId (jobs w)) as [j|].
  - destruct (pages w !! messageId) as [page|]; [|done].
    unfold try_catch. by destruct (_ w) as [[[]|msg] w1].
  - unfold clearInterval. by destruct (timers w !! messageId).
Qed.

Lemma register_eq cfg se g c u r w msg :
  first_message se = Some msg ->
  register cfg se g c u r w =
    (Ok msg,
     let w1 := set_next_handle (S (next_handle w)) w in
     let w2 := set_out (fun o => o ++ [Sent c (start_payload cfg u (channel_icon se)
                                                 (start_clock se)) msg]) w1 in
     let w3 := set_next_rowid (S (next_rowid w2))
                 (set_jobs (fun rows => rows ++
                    [Job (next_rowid w2) u g c msg (or_null (assignee se)) (or_null r)
                         None None None None]) w2) in
     let w4 := set_pages (<[msg := next_handle w]>) w3 in
     let l := fresh (dom (heap w4)) in
     set_states (<[msg := l]>) (set_heap (<[l := State None None (assignee se)]>) w4)).
Proof.
  intros H. unfold register, new_handle, emit, DB.insert, alloc, bind, modify, ret.
  by rewrite H.
Qed.

(** C6, counterexample. The link of the job [started_walled] needed a
    login in the first cycle, which ended the job; [startJob] then set the
    timer. The timer is there and running, without a page, a state entry
    or a row. *)
Lemma coupling_counterexample : ~ coupled started_walled.
Proof.
  intros H.
  destruct (H "m1" 1%nat ltac:(vm_compute; reflexivity)) as ([p Hp] & _).
  vm_compute in Hp. discriminate.
Qed.

(** C6, amended. [startJob] creates the row, the page entry and the state
    entry of the new message together, runs the first cycle, and sets the
    timer last, whatever that cycle did. A cycle that ends the job, at a
    login wall or on delivery, with the message edited in place, removes
    the timer, the page, the state entry and the row together, cancels the
    interval and closes the page. A timer whose row is gone, as after a
    first cycle that ended the job, is cancelled and dropped by its next
    tick, which touches nothing else. *)
Theorem start_and_terminate cfg :
  (forall se g c u r w msg,
     first_message se = Some msg ->
     DB.getByMessageId msg (jobs w) = None ->
     let w1 := snd (register cfg se g c u r w) in
     List.length (filter (fun j => DB.has_message msg j = true) (jobs w1)) = 1%nat
     /\ pages w1 !! msg = Some (next_handle w)
     /\ exists l, states w1 !! msg = Some l
                  /\ heap w1 !! l = Some (State None None (assignee se)))
  /\ (forall se g c u r w msg,
        first_message se = Some msg ->
        let w' := snd (startJob cfg se g c u r w) in
        exists t, timers w' !! msg = Some t /\ intervals w' !! t = Some msg)
  /\ (forall e messageId w j page,
        DB.getByMessageId messageId (jobs w) = Some j ->
        pages w !! messageId = Some page ->
        fst (scrapeOrderPage (load e)) = Ok RequiresLogin ->
        in_place e = true ->
        let w' := cycle cfg e messageId w in
        gone messageId w' /\ page ∈ closed w'
        /\ (forall t, timers w !! messageId = Some t -> intervals w' !! t = None))
  /\ (forall e messageId w j page html icon l st,
        DB.getByMessageId messageId (jobs w) = Some j ->
        pages w !! messageId = Some page ->
        load e 0%nat = Loaded html ->
        states w !! messageId = Some l ->
        heap w !! l = Some st ->
        guild e = Some icon -> ping_channel e = true -> final_channel e = true ->
        in_place e = true ->
        deliveredNow_of (scrapeFromHTML html) (phase_of (scrapeFromHTML html) st) = true ->
        let w' := cycle cfg e messageId w in
        gone messageId w' /\ page ∈ closed w'
        /\ (forall t, timers w !! messageId = Some t -> intervals w' !! t = None))
  /\ (forall e messageId w,
        DB.getByMessageId messageId (jobs w) = None ->
        let w' := cycle cfg e messageId w in
        timers w' !! messageId = None
        /\ (forall t, timers w !! messageId = Some t -> intervals w' !! t = None)
        /\ jobs w' = jobs w /\ pages w' = pages w /\ states w' = states w
        /\ heap w' = heap w /\ out w' = out w).
Proof.
  split_and!.
  - intros se g c u r w msg Hmsg Hnone. cbv zeta.
    rewrite (register_eq _ _ _ _ _ _ _ _ Hmsg). cbv zeta.
    cbn [snd jobs pages states heap set_states set_heap set_pages set_next_rowid
         set_jobs set_out set_next_handle next_handle next_rowid].
    split_and!.
    + rewrite filter_app.
      replace (filter _ (jobs w)) with (@nil job).
      * rewrite filter_cons, decide_True; [done|].
        apply has_message_eq. reflexivity.
      * symmetry. unfold DB.getByMessageId in Hnone. by apply head_None in Hnone.
    + apply lookup_insert_eq.
    + eexists. split; apply lookup_insert_eq.
  - intros se g c u r w msg Hmsg. cbv zeta.
    unfold startJob, bind. rewrite (register_eq _ _ _ _ _ _ _ _ Hmsg).
    match goal with
    | |- context [runOnceAndUpdate cfg (first_cycle se) msg ?w0] =>
        pose proof (runOnceAndUpdate_ok cfg (first_cycle se) msg w0) as Hok;
        destruct (runOnceAndUpdate cfg (first_cycle se) msg w0) as [r1 w1]
    end.
    cbn [fst] in Hok. subst r1.
    unfold schedule, new_handle, bind, modify, ret. cbn [fst snd].
    exists (next_handle w1). split; cbn; apply lookup_insert_eq.
  - intros e messageId w j page Hj Hp Hs Hplace. cbv zeta.
    unfold cycle, runOnceAndUpdate, bind, get. rewrite Hj, Hp, Hs.
    unfold try_catch, on_login_wall, bind.
    rewrite safeEditOrRepost_in_place by done.
    set (w1 := set_out _ w).
    assert (Hd : exists w2, dmRequester (requester_user_id j) LOGIN_DM w1 = (Ok tt, w2)
                            /\ timers w2 = timers w).
    { unfold dmRequester, emit, modify, ret. destruct (truthy _); eauto. }
    destruct Hd as (w2 & -> & Ht). rewrite teardown_eq. cbn [snd].
    destruct (torn_down_gone messageId page w2) as (Hgone & Hclosed & Hint).
    split_and!; [done | done |]. intros t Ht'. apply Hint. by rewrite Ht.
  - intros e messageId w j page html icon l st Hj Hp Hload Hs Hh Hg Hping Hfinal Hplace Hdn.
    cbv zeta.
    pose proof (snapshot_cycle_in_place cfg e messageId w j page html icon l st
                  Hj Hp Hload Hs Hh Hg Hping Hfinal Hplace) as H.
    cbv zeta in H. rewrite Hdn in H. destruct H as (? & ? & ? & _). done.
  - intros e messageId w Hnone. cbv zeta.
    unfold cycle, runOnceAndUpdate, bind, get. rewrite Hnone.
    unfold clearInterval, modify, ret.
    destruct (timers w !! messageId) as [t|] eqn:Ht; cbn.
    + split_and!; try done; [apply lookup_delete_eq|].
      intros t' [= <-]. apply lookup_delete_eq.
    + split_and!; try done. apply lookup_delete_eq.
Qed.

(** A registration in the empty world, the start of [started], the login
    wall and the delivery met by [started], and the next tick of
    [started_walled]. *)
Lemma start_and_terminate_witness :
  pages registered !! "m1" = Some 0%nat
  /\ (exists t, timers started !! "m1" = Some t /\ intervals started !! t = Some "m1")
  /\ gone "m1" (cycle default_config (walled 62000) "m1" started)
  /\ gone "m1" (cycle default_config (calm page_preorder 62000) "m1" started)
  /\ timers (cycle default_config (calm page_almost 62000) "m1" started_walled) !! "m1" = None.
Proof.
  destruct (start_and_terminate default_config) as (Hreg & Hstart & Hlogin & Hdeliv & Hstale).
  split_and!.
  - apply (Hreg (starting (calm page_preparing 2000)) "g1" "c1" URL (Some "u1")
             empty_world "m1"); vm_compute; reflexivity.
  - apply (Hstart (starting (calm page_preparing 2000)) "g1" "c1" URL (Some "u1")
             empty_world "m1"). reflexivity.
  - eapply (Hlogin (walled 62000) "m1" started);
      [vm_compute; reflexivity | vm_compute; reflexivity | vm_compute; reflexivity
      | reflexivity].
  - eapply (Hdeliv (calm page_preorder 62000) "m1" started);
      [vm_compute; reflexivity | vm_compute; reflexivity | reflexivity
      | vm_compute; reflexivity | vm_compute; reflexivity | reflexivity
      | reflexivity | reflexivity | reflexivity | vm_compute; reflexivity].
  - apply (Hstale (calm page_almost 62000) "m1" started_walled). vm_compute. reflexivity.
Defined.
